(** * Development-Project-Index: the index model, the fetchers and the run

    A shallow embedding of [schema.py], [github_indexer.py],
    [huggingface_indexer.py] and [index_projects.py].  Python objects that
    are mutated in place are threaded as explicit state; a Python exception
    is the [Raise] outcome of a computation, and the state reached when it
    was raised is kept, as in Python. *)

From stdpp Require Import base option list strings gmap sorting.
From Stdlib Require Import Ascii ZArith Lia.

#[local] Set Warnings "-register-all".

Open Scope string_scope.
Open Scope list_scope.
Open Scope Z_scope.

(** ** Exceptions and outcomes *)

Inductive exn : Type :=
  | ValueError
  | TypeError
  | AttributeError
  | KeyError
  | IndexError
  | HTTPError
  | JSONDecodeError
  | ValidationError
  | OSError.

(** The outcome of running a piece of the program: a value, an exception,
    or [OutOfFuel] when a [while True] loop was cut after the number of
    rounds it was allowed.  [OutOfFuel] is no exception: no [except] clause
    sees it. *)
Inductive result (A : Type) : Type :=
  | Ok (a : A)
  | Raise (e : exn)
  | OutOfFuel.
Arguments Ok {A} a.
Arguments Raise {A} e.
Arguments OutOfFuel {A}.

#[global] Instance exn_eq_dec : EqDecision exn.
Proof. solve_decision. Defined.

(** A computation over a mutable state [S]. *)
Definition M (S A : Type) : Type := S → result A * S.

Definition ret {S A} (a : A) : M S A := λ s, (Ok a, s).
Definition raise {S A} (e : exn) : M S A := λ s, (Raise e, s).
Definition bind {S A B} (m : M S A) (k : A → M S B) : M S B :=
  λ s, match m s with
       | (Ok a, s') => k a s'
       | (Raise e, s') => (Raise e, s')
       | (OutOfFuel, s') => (OutOfFuel, s')
       end.
Definition get_state {S} : M S S := λ s, (Ok s, s).
Definition put_state {S} (s : S) : M S unit := λ _, (Ok tt, s).
Definition modify {S} (f : S → S) : M S unit := λ s, (Ok tt, f s).
(** [try: m except Exception as e: h e] *)
Definition try_except {S A} (m : M S A) (h : exn → M S A) : M S A :=
  λ s, match m s with
       | (Ok a, s') => (Ok a, s')
       | (Raise e, s') => h e s'
       | (OutOfFuel, s') => (OutOfFuel, s')
       end.
(** A pure step that may raise. *)
Definition lift_result {S A} (r : result A) : M S A := λ s, (r, s).

Declare Scope py_scope.
Delimit Scope py_scope with py.
Notation "'let*' x := m 'in' k" := (bind m (λ x, k))
  (at level 10, x name, m at level 100, k at level 200) : py_scope.
Notation "m >> k" := (bind m (λ _, k))
  (at level 100, k at level 200, right associativity) : py_scope.
Open Scope py_scope.

(** ** JSON values *)

Inductive json : Type :=
  | JNull
  | JBool (b : bool)
  | JNum (z : Z)
  | JStr (s : string)
  | JArr (l : list json)
  | JObj (kv : list (string * json)).

(** [d.get(k)] on a Python dict kept in insertion order. *)
Fixpoint dict_get {V} (k : string) (d : list (string * V)) : option V :=
  match d with
  | [] => None
  | (k', v) :: d' => if decide (k' = k) then Some v else dict_get k d'
  end.

(** [d[k] = v]: overwrite in place when the key is there, else append. *)
Fixpoint dict_set {V} (k : string) (v : V) (d : list (string * V))
  : list (string * V) :=
  match d with
  | [] => [(k, v)]
  | (k', v') :: d' =>
      if decide (k' = k) then (k, v) :: d' else (k', v') :: dict_set k v d'
  end.

(** The values a Python program can hold: the keys of a dict are pairwise
    distinct, at every depth. *)
Fixpoint wf_json (j : json) : bool :=
  match j with
  | JArr l => forallb wf_json l
  | JObj kv =>
      bool_decide (NoDup kv.*1)
      && forallb (λ e, match e with (_, v) => wf_json v end) kv
  | _ => true
  end.

(** Python truthiness of a JSON value. *)
Definition truthy (j : json) : bool :=
  match j with
  | JNull => false
  | JBool b => b
  | JNum z => negb (z =? 0)
  | JStr s => negb (bool_decide (s = ""))
  | JArr l => negb (bool_decide (length l = 0%nat))
  | JObj kv => negb (bool_decide (length kv = 0%nat))
  end.

(** ** datetime

    A [datetime] is a count of microseconds since year 1 in local time,
    with an optional UTC offset: the offset is absent on a naive value and
    present on a timezone-aware one. *)

Record datetime : Type := Datetime {
  dt_ticks : Z;
  dt_offset : option Z
}.

#[global] Instance datetime_eq_dec : EqDecision datetime.
Proof. solve_decision. Defined.

(** [datetime.min]: naive. *)
Definition datetime_min : datetime := Datetime 0 None.

(** [a == b]: naive values compare by local time, aware values by instant,
    a naive and an aware value are never equal. *)
Definition datetime_eq (a b : datetime) : bool :=
  match dt_offset a, dt_offset b with
  | None, None => dt_ticks a =? dt_ticks b
  | Some oa, Some ob => (dt_ticks a - oa) =? (dt_ticks b - ob)
  | _, _ => false
  end.

(** [a < b]: ordering a naive against an aware value raises [TypeError]
    ("can't compare offset-naive and offset-aware datetimes"). *)
Definition datetime_lt (a b : datetime) : result bool :=
  match dt_offset a, dt_offset b with
  | None, None => Ok (dt_ticks a <? dt_ticks b)
  | Some oa, Some ob => Ok ((dt_ticks a - oa) <? (dt_ticks b - ob))
  | _, _ => Raise TypeError
  end.

(** ** schema.py *)

Record Project : Type := mkProject {
  source : string;
  type : string;
  name : string;
  full_name : string;
  description : option string;
  url : string;
  created_at : option datetime;
  updated_at : option datetime;
  language : option string;
  topics : list string
}.

#[global] Instance Project_eq_dec : EqDecision Project.
Proof. solve_decision. Defined.

Definition option_eqb {A} (eqb : A → A → bool) (a b : option A) : bool :=
  match a, b with
  | None, None => true
  | Some x, Some y => eqb x y
  | _, _ => false
  end.

(** [p == q] on two models: field by field with Python's [==]. *)
Definition project_eq (p q : Project) : bool :=
  bool_decide (source p = source q)
  && bool_decide (type p = type q)
  && bool_decide (name p = name q)
  && bool_decide (full_name p = full_name q)
  && bool_decide (description p = description q)
  && bool_decide (url p = url q)
  && option_eqb datetime_eq (created_at p) (created_at q)
  && option_eqb datetime_eq (updated_at p) (updated_at q)
  && bool_decide (language p = language q)
  && bool_decide (topics p = topics q).

Record ProjectIndex : Type := mkIndex {
  metadata : list (string * json);
  projects : list Project
}.

Definition set_projects (l : list Project) (idx : ProjectIndex) : ProjectIndex :=
  {| metadata := metadata idx; projects := l |}.

Definition set_metadata (m : list (string * json)) (idx : ProjectIndex)
  : ProjectIndex :=
  {| metadata := m; projects := projects idx |}.

(** [ProjectIndex()], built at the time [now]. *)
Definition new_index (now : string) : ProjectIndex :=
  {| metadata := [("generated_at", JStr now); ("version", JStr "1.0")];
     projects := [] |}.

Definition add_project (project : Project) : M ProjectIndex unit :=
  modify (λ idx, set_projects (projects idx ++ [project]) idx).

Definition get_project_key (project : Project) : string :=
  source project +:+ ":" +:+ full_name project.

Fixpoint find_project_in (key : string) (l : list Project) : option Project :=
  match l with
  | [] => None
  | existing :: l' =>
      if decide (get_project_key existing = key) then Some existing
      else find_project_in key l'
  end.

Definition find_project (project : Project) (idx : ProjectIndex)
  : option Project :=
  find_project_in (get_project_key project) (projects idx).

(** [l.index(x)]: the first position holding a value equal to [x]. *)
Fixpoint list_index_from (x : Project) (l : list Project) (i : nat)
  : result nat :=
  match l with
  | [] => Raise ValueError
  | y :: l' => if project_eq y x then Ok i else list_index_from x l' (S i)
  end.

Definition list_index (x : Project) (l : list Project) : result nat :=
  list_index_from x l 0.

(** Returns [true] when the project was added, [false] when updated. *)
Definition merge_project (new_project : Project) : M ProjectIndex bool :=
  let* self := get_state in
  match find_project new_project self with
  | Some existing =>
      let* idx := lift_result (list_index existing (projects self)) in
      put_state (set_projects (<[idx := new_project]> (projects self)) self) >>
      ret false
  | None =>
      add_project new_project >>
      ret true
  end.

Record merge_stats : Type := mkStats { added : nat; updated : nat }.

Fixpoint merge_projects_loop (new_projects : list Project) (st : merge_stats)
  : M ProjectIndex merge_stats :=
  match new_projects with
  | [] => ret st
  | project :: rest =>
      let* was_added := merge_project project in
      merge_projects_loop rest
        (if was_added : bool
         then mkStats (S (added st)) (updated st)
         else mkStats (added st) (S (updated st)))
  end.

Definition merge_projects (new_projects : list Project)
  : M ProjectIndex merge_stats :=
  merge_projects_loop new_projects (mkStats 0 0).

Definition get_by_source (src : string) (idx : ProjectIndex) : list Project :=
  filter (λ p, source p = src) (projects idx).

Definition get_by_type (project_type : string) (idx : ProjectIndex)
  : list Project :=
  filter (λ p, type p = project_type) (projects idx).

(** [sort_by_date]: the sort key is [x.created_at or datetime.min]; a
    datetime is always truthy. *)
Definition sort_key (x : Project) : datetime :=
  match created_at x with
  | Some d => d
  | None => datetime_min
  end.

(** [list.sort(key=..., reverse=...)] is a stable comparison sort that only
    asks [<] of two keys and lets an exception of [<] escape.  It is
    modelled by stable insertion, left to right: with [reverse=True] an
    element goes in front of the first one whose key is smaller than its
    own, with [reverse=False] in front of the first one whose key is
    greater. *)
Fixpoint sort_insert (reverse : bool) (x : Project) (l : list Project)
  : result (list Project) :=
  match l with
  | [] => Ok [x]
  | y :: l' =>
      match (if reverse then datetime_lt (sort_key y) (sort_key x)
             else datetime_lt (sort_key x) (sort_key y)) with
      | Ok true => Ok (x :: y :: l')
      | Ok false =>
          match sort_insert reverse x l' with
          | Ok r => Ok (y :: r)
          | Raise e => Raise e
          | OutOfFuel => OutOfFuel
          end
      | Raise e => Raise e
      | OutOfFuel => OutOfFuel
      end
  end.

Fixpoint list_sort_from (reverse : bool) (sorted : list Project)
  (l : list Project) : result (list Project) :=
  match l with
  | [] => Ok sorted
  | x :: l' =>
      match sort_insert reverse x sorted with
      | Ok sorted' => list_sort_from reverse sorted' l'
      | Raise e => Raise e
      | OutOfFuel => OutOfFuel
      end
  end.

Definition list_sort (reverse : bool) (l : list Project)
  : result (list Project) :=
  list_sort_from reverse [] l.

Definition sort_by_date (reverse : bool) : M ProjectIndex unit :=
  let* self := get_state in
  let* sorted := lift_result (list_sort reverse (projects self)) in
  put_state (set_projects sorted self).

(** ** The Python library the program stands on

    Text-level parsing and printing is library code; it is a parameter of
    the development.  [None] stands for the exception the library raises
    ([ValueError] for [datetime.fromisoformat], [JSONDecodeError] for
    [json.load], a validation error for the datetime validator of the
    model class). *)
Class PyLib : Type := {
  fromisoformat : string → option datetime;
  isoformat : datetime → string;
  str_datetime : datetime → string;
  validate_datetime : json → option datetime;
  json_loads : string → option json;
  json_dumps : json → string;
  model_dump_json_text : json → string
}.

(** [s.replace("Z", "+00:00")] *)
Fixpoint replace_Z (s : string) : string :=
  match s with
  | EmptyString => EmptyString
  | String c s' =>
      if bool_decide (c = "Z"%char) then "+00:00" +:+ replace_Z s'
      else String c (replace_Z s')
  end.

(** ["/" in s] *)
Fixpoint has_slash (s : string) : bool :=
  match s with
  | EmptyString => false
  | String c s' => bool_decide (c = "/"%char) || has_slash s'
  end.

(** [s.split("/")[-1]]: what follows the last slash. *)
Fixpoint last_segment_from (acc : string) (s : string) : string :=
  match s with
  | EmptyString => acc
  | String c s' =>
      if bool_decide (c = "/"%char) then last_segment_from s' s'
      else last_segment_from acc s'
  end.

Definition last_segment (s : string) : string := last_segment_from s s.

(** ** HTTP: the requests a session sends and what the platforms answer *)

Inductive request : Type :=
  | GET_user
  | GET_user_repos (username : string) (per_page page : nat)
  | GET_user_gists (username : string) (per_page page : nat)
  | GET_rate_limit
  | GET_whoami
  | GET_listing (category : string) (author : string) (limit : nat).

#[global] Instance request_eq_dec : EqDecision request.
Proof. solve_decision. Defined.

(** A repository of the listing payload, with the keys the fetcher reads:
    the ones read with [repo[...]] are there and hold text, the ones read
    with [repo.get(...)] may be missing. *)
Record raw_repo : Type := mkRawRepo {
  r_private : option json;
  r_name : string;
  r_full_name : string;
  r_description : option string;
  r_html_url : string;
  r_created_at : string;
  r_updated_at : string;
  r_language : option string;
  r_topics : option (list string)
}.

Record raw_file : Type := mkRawFile {
  f_language : option string
}.

Record raw_gist : Type := mkRawGist {
  g_public : option json;
  g_description : option string;
  g_files : option (list (string * raw_file));
  g_id : string;
  g_html_url : string;
  g_created_at : string;
  g_updated_at : string
}.

(** An item of a model, dataset or space listing.  The two timestamps are
    kept as raw JSON values: [_parse_datetime] is written to take
    anything. *)
Record raw_hf : Type := mkRawHF {
  h_private : option json;
  h_id : string;
  h_cardData_description : option string;
  h_description : option string;
  h_createdAt : option json;
  h_lastModified : option json;
  h_pipeline_tag : option string;
  h_sdk : option string;
  h_tags : option (list string)
}.

(** The answers of the two platforms; [Raise HTTPError] is what
    [raise_for_status] does on a status that is not 2xx. *)
Record Network : Type := mkNetwork {
  gh_user : result string;
  gh_repos : string → nat → nat → result (list raw_repo);
  gh_gists : string → nat → nat → result (list raw_gist);
  gh_rate_limit : result json;
  hf_whoami : result string;
  hf_listing : string → string → nat → result (list raw_hf)
}.

(** ** The world a run acts on *)

Inductive log_level : Type := INFO | WARNING | ERROR.

(** A log record: level, the fixed text of the message, the numbers and the
    text put into it, and the exception it reports. *)
Record log_record : Type := Log {
  log_lvl : log_level;
  log_msg : string;
  log_nums : list nat;
  log_text : list string;
  log_exn : option exn
}.

(** A path is the list of its components below the project root. *)
Inductive fentry : Type :=
  | File (readable : bool) (content : string)
  | Dir.

Record World : Type := mkWorld {
  environ : list (string * string);
  dotenv : list (string * string);
  fs : gmap (list string) fentry;
  net : Network;
  sent : list request;
  log : list log_record;
  clock : string
}.

Definition set_environ (e : list (string * string)) (w : World) : World :=
  mkWorld e (dotenv w) (fs w) (net w) (sent w) (log w) (clock w).
Definition set_fs (f : gmap (list string) fentry) (w : World) : World :=
  mkWorld (environ w) (dotenv w) f (net w) (sent w) (log w) (clock w).
Definition set_sent (r : list request) (w : World) : World :=
  mkWorld (environ w) (dotenv w) (fs w) (net w) r (log w) (clock w).
Definition set_log (l : list log_record) (w : World) : World :=
  mkWorld (environ w) (dotenv w) (fs w) (net w) (sent w) l (clock w).

Definition logger (lvl : log_level) (msg : string) (nums : list nat)
  (text : list string) (e : option exn) : M World unit :=
  modify (λ w, set_log (log w ++ [Log lvl msg nums text e]) w).

Definition logger_info (msg : string) (nums : list nat) (text : list string)
  : M World unit := logger INFO msg nums text None.
Definition logger_warning (msg : string) (e : exn) : M World unit :=
  logger WARNING msg [] [] (Some e).
Definition logger_error (msg : string) (e : option exn) : M World unit :=
  logger ERROR msg [] [] e.

(** [session.get(...)] followed by [raise_for_status()] and [.json()]: the
    request is sent, then answered. *)
Definition session_get {A} (rq : request) (answer : Network → result A)
  : M World A :=
  modify (λ w, set_sent (sent w ++ [rq]) w) >>
  let* w := get_state in
  lift_result (answer (net w)).

(** [not s] on an optional text: [None] and the empty text are falsy. *)
Definition falsy_str (s : option string) : bool :=
  match s with
  | None => true
  | Some s => bool_decide (s = "")
  end.

Definition option_truthy (v : option json) (default : bool) : bool :=
  match v with
  | Some j => truthy j
  | None => default
  end.

Section fetchers.
Context {lib : PyLib}.

(** [datetime.fromisoformat(s.replace("Z", "+00:00"))] *)
Definition parse_iso_Z (s : string) : result datetime :=
  match fromisoformat (replace_Z s) with
  | Some d => Ok d
  | None => Raise ValueError
  end.

(** A [for] loop that appends to [projects]; a round gives [None] when it
    ends in [continue]. *)
Fixpoint for_each {A} (f : A → result (option Project)) (items : list A)
  (projects : list Project) : result (list Project) :=
  match items with
  | [] => Ok projects
  | item :: rest =>
      match f item with
      | Ok (Some project) => for_each f rest (projects ++ [project])
      | Ok None => for_each f rest projects
      | Raise e => Raise e
      | OutOfFuel => OutOfFuel
      end
  end.

(** *** github_indexer.py *)

Definition gh_per_page : nat := 100.

Definition repo_project (repo : raw_repo) : result (option Project) :=
  if option_truthy (r_private repo) false then Ok None
  else
    match parse_iso_Z (r_created_at repo) with
    | Ok created =>
        match parse_iso_Z (r_updated_at repo) with
        | Ok updated =>
            Ok (Some (mkProject "GitHub" "Repository" (r_name repo)
                        (r_full_name repo) (r_description repo)
                        (r_html_url repo) (Some created) (Some updated)
                        (r_language repo) (default [] (r_topics repo))))
        | Raise e => Raise e
        | OutOfFuel => OutOfFuel
        end
    | Raise e => Raise e
    | OutOfFuel => OutOfFuel
    end.

Definition get_authenticated_user : M World string :=
  session_get GET_user gh_user.

(** [if not username: username = self.get_authenticated_user()] *)
Definition resolve_username (username : option string) : M World string :=
  match username with
  | Some u => if bool_decide (u = "") then get_authenticated_user else ret u
  | None => get_authenticated_user
  end.

(** The [while True] loop of [fetch_public_repos], cut after [fuel] rounds. *)
Fixpoint fetch_repos_loop (username : string) (fuel : nat) (page : nat)
  (projects : list Project) : M World (list Project) :=
  match fuel with
  | O => lift_result OutOfFuel
  | S fuel' =>
      let* repos :=
        session_get (GET_user_repos username gh_per_page page)
                    (λ n, gh_repos n username gh_per_page page) in
      if bool_decide (repos = []) then ret projects
      else
        let* projects' := lift_result (for_each repo_project repos projects) in
        logger_info "Fetched page (repos)" [page; length repos] [] >>
        if (length repos <? gh_per_page)%nat then ret projects'
        else fetch_repos_loop username fuel' (S page) projects'
  end.

Definition fetch_public_repos (fuel : nat) (username : option string)
  : M World (list Project) :=
  let* username := resolve_username username in
  logger_info "Fetching public repositories for" [] [username] >>
  let* projects := fetch_repos_loop username fuel 1 [] in
  logger_info "Total public repositories fetched" [length projects] [] >>
  ret projects.

Definition gist_project (username : string) (gist : raw_gist)
  : result (option Project) :=
  if negb (option_truthy (g_public gist) true) then Ok None
  else
    let files_truthy :=
      match g_files gist with
      | Some (_ :: _) => true
      | _ => false
      end in
    let description :=
      if falsy_str (g_description gist) && files_truthy
      then match g_files gist with
           | Some ((first_file, _) :: _) =>
               Some ("Gist containing " +:+ first_file)
           | _ => g_description gist
           end
      else g_description gist in
    let language :=
      match g_files gist with
      | Some ((_, first_file_data) :: _) => f_language first_file_data
      | _ => None
      end in
    match parse_iso_Z (g_created_at gist) with
    | Ok created =>
        match parse_iso_Z (g_updated_at gist) with
        | Ok updated =>
            Ok (Some (mkProject "GitHub" "Gist" (g_id gist)
                        (username +:+ "/gist:" +:+ g_id gist) description
                        (g_html_url gist) (Some created) (Some updated)
                        language []))
        | Raise e => Raise e
        | OutOfFuel => OutOfFuel
        end
    | Raise e => Raise e
    | OutOfFuel => OutOfFuel
    end.

Fixpoint fetch_gists_loop (username : string) (fuel : nat) (page : nat)
  (projects : list Project) : M World (list Project) :=
  match fuel with
  | O => lift_result OutOfFuel
  | S fuel' =>
      let* gists :=
        session_get (GET_user_gists username gh_per_page page)
                    (λ n, gh_gists n username gh_per_page page) in
      if bool_decide (gists = []) then ret projects
      else
        let* projects' :=
          lift_result (for_each (gist_project username) gists projects) in
        logger_info "Fetched page (gists)" [page; length gists] [] >>
        if (length gists <? gh_per_page)%nat then ret projects'
        else fetch_gists_loop username fuel' (S page) projects'
  end.

Definition fetch_public_gists (fuel : nat) (username : option string)
  : M World (list Project) :=
  let* username := resolve_username username in
  logger_info "Fetching public gists for" [] [username] >>
  let* projects := fetch_gists_loop username fuel 1 [] in
  logger_info "Total public gists fetched" [length projects] [] >>
  ret projects.

Definition check_rate_limit : M World json :=
  session_get GET_rate_limit gh_rate_limit.

(** *** huggingface_indexer.py *)

Definition hf_get_authenticated_user : M World string :=
  session_get GET_whoami hf_whoami.

Definition resolve_author (author : option string) : M World string :=
  match author with
  | Some a => if bool_decide (a = "") then hf_get_authenticated_user else ret a
  | None => hf_get_authenticated_user
  end.

(** The body of the [try]: [.replace] exists on text only, and
    [fromisoformat] raises [ValueError] on text it cannot read. *)
Definition parse_datetime_body (j : json) : result datetime :=
  match j with
  | JStr s => parse_iso_Z s
  | _ => Raise AttributeError
  end.

Definition _parse_datetime (date_str : option json)
  : result (option datetime) :=
  match date_str with
  | None => Ok None
  | Some j =>
      if negb (truthy j) then Ok None
      else
        match parse_datetime_body j with
        | Ok d => Ok (Some d)
        | Raise ValueError => Ok None
        | Raise AttributeError => Ok None
        | Raise e => Raise e
        | OutOfFuel => OutOfFuel
        end
  end.

(** [item["id"].split("/")[-1] if "/" in item["id"] else item["id"]] *)
Definition short_name (id : string) : string :=
  if has_slash id then last_segment id else id.

(** [a or b] on two optional texts. *)
Definition or_else (a b : option string) : option string :=
  if falsy_str a then b else a.

Definition hf_project (type_ url_prefix : string)
  (language_of : raw_hf → option string) (item : raw_hf)
  : result (option Project) :=
  if option_truthy (h_private item) false then Ok None
  else
    match _parse_datetime (h_createdAt item) with
    | Ok created =>
        match _parse_datetime (h_lastModified item) with
        | Ok updated =>
            Ok (Some (mkProject "HuggingFace" type_ (short_name (h_id item))
                        (h_id item)
                        (or_else (h_cardData_description item)
                                 (h_description item))
                        (url_prefix +:+ h_id item) created updated
                        (language_of item) (default [] (h_tags item))))
        | Raise e => Raise e
        | OutOfFuel => OutOfFuel
        end
    | Raise e => Raise e
    | OutOfFuel => OutOfFuel
    end.

Definition hf_limit : nat := 500.

(** The three fetchers differ in the endpoint, the type, the URL and the
    field kept as language; each sends one request. *)
Definition fetch_category (category type_ url_prefix : string)
  (language_of : raw_hf → option string) (author : option string)
  : M World (list Project) :=
  let* author := resolve_author author in
  logger_info "Fetching public items for" [] [category; author] >>
  let* items :=
    session_get (GET_listing category author hf_limit)
                (λ n, hf_listing n category author hf_limit) in
  let* projects :=
    lift_result (for_each (hf_project type_ url_prefix language_of) items []) in
  logger_info "Total public items fetched" [length projects] [category] >>
  ret projects.

Definition fetch_public_models : option string → M World (list Project) :=
  fetch_category "models" "Model" "https://huggingface.co/" h_pipeline_tag.

Definition fetch_public_datasets : option string → M World (list Project) :=
  fetch_category "datasets" "Dataset" "https://huggingface.co/datasets/"
                 (λ _, None).

Definition fetch_public_spaces : option string → M World (list Project) :=
  fetch_category "spaces" "Space" "https://huggingface.co/spaces/" h_sdk.

(** [try: all_projects.extend(fetch(author)) except Exception as e: log] *)
Definition extend_or_log (msg : string)
  (fetch : option string → M World (list Project)) (author : option string)
  (all_projects : list Project) : M World (list Project) :=
  try_except
    (let* fetched := fetch author in ret (all_projects ++ fetched))
    (λ e, logger_error msg (Some e) >> ret all_projects).

Definition fetch_all (author : option string) : M World (list Project) :=
  let* all_projects :=
    extend_or_log "Error fetching models" fetch_public_models author [] in
  let* all_projects :=
    extend_or_log "Error fetching datasets" fetch_public_datasets author
                  all_projects in
  extend_or_log "Error fetching spaces" fetch_public_spaces author
                all_projects.

End fetchers.

(** ** Files *)

(** The directory a path lies in. *)
Definition parent (p : list string) : list string := removelast p.

(** The project root is there; any other directory has to be in the map. *)
Definition is_dir (p : list string) (w : World) : bool :=
  match p with
  | [] => true
  | _ => match fs w !! p with
         | Some Dir => true
         | _ => false
         end
  end.

(** The longest name the file system takes for one component of a path,
    in bytes (255 on the Linux file systems). *)
Definition NAME_MAX : nat := 255.

Definition name_too_long (p : list string) : bool :=
  existsb (λ c, (NAME_MAX <? String.length c)%nat) p.

(** [path.exists()]: a [stat] of the path.  For a path that is there it
    gives [True].  For one that is not, [stat] fails, and [exists] turns
    the failure into [False] only when it is "no such file or directory"
    or one of its kin ([ENOENT], [ENOTDIR], [EBADF], [ELOOP]); any other
    [OSError] is raised again, as the one for a name that is too long
    ([ENAMETOOLONG]).  Directories carry no permissions in [World], so
    the [OSError] of a directory that may not be searched ([EACCES]) has
    no counterpart here. *)
Definition path_exists (p : list string) (w : World) : result bool :=
  if is_dir p w || bool_decide (is_Some (fs w !! p)) then Ok true
  else if name_too_long p then Raise OSError
  else Ok false.

(** [open(p, "r")] and [f.read()]: every failure is an [OSError]. *)
Definition open_read (p : list string) : M World string :=
  let* w := get_state in
  match fs w !! p with
  | Some (File true content) => ret content
  | _ => raise OSError
  end.

(** [open(p, "w")] and [f.write(content)] *)
Definition open_write (p : list string) (content : string) : M World unit :=
  let* w := get_state in
  if negb (is_dir (parent p) w) then raise OSError
  else
    match p, fs w !! p with
    | [], _ => raise OSError
    | _, Some Dir => raise OSError
    | _, Some (File r _) => put_state (set_fs (<[p := File r content]> (fs w)) w)
    | _, None => put_state (set_fs (<[p := File true content]> (fs w)) w)
    end.

(** [p.mkdir(exist_ok=True)] *)
Definition mkdir_exist_ok (p : list string) : M World unit :=
  let* w := get_state in
  if is_dir p w then ret tt
  else
    match fs w !! p with
    | Some _ => raise OSError
    | None =>
        if is_dir (parent p) w
        then put_state (set_fs (<[p := Dir]> (fs w)) w)
        else raise OSError
    end.

(** [logging.FileHandler(p)]: the file is opened for appending, which
    creates it when it is not there. *)
Definition open_append (p : list string) : M World unit :=
  let* w := get_state in
  match p, fs w !! p with
  | [], _ => raise OSError
  | _, Some Dir => raise OSError
  | _, Some (File _ _) => ret tt
  | _, None =>
      if is_dir (parent p) w
      then put_state (set_fs (<[p := File true ""]> (fs w)) w)
      else raise OSError
  end.

(** ** The model classes as JSON *)

Definition result_bind {A B} (r : result A) (k : A → result B) : result B :=
  match r with
  | Ok a => k a
  | Raise e => Raise e
  | OutOfFuel => OutOfFuel
  end.

Notation "'let?' x := r 'in' k" := (result_bind r (λ x, k))
  (at level 10, x name, r at level 100, k at level 200) : py_scope.

Definition opt_json {A} (f : A → json) (o : option A) : json :=
  match o with
  | Some a => f a
  | None => JNull
  end.

(** [p.model_dump()], with [render] for the text of a datetime. *)
Definition model_dump_project (render : datetime → string) (p : Project)
  : json :=
  JObj [("source", JStr (source p));
        ("type", JStr (type p));
        ("name", JStr (name p));
        ("full_name", JStr (full_name p));
        ("description", opt_json JStr (description p));
        ("url", JStr (url p));
        ("created_at", opt_json (λ d, JStr (render d)) (created_at p));
        ("updated_at", opt_json (λ d, JStr (render d)) (updated_at p));
        ("language", opt_json JStr (language p));
        ("topics", JArr (JStr <$> topics p))].

Definition validate_str (j : option json) : result string :=
  match j with
  | Some (JStr s) => Ok s
  | _ => Raise ValidationError
  end.

Definition validate_opt_str (j : option json) : result (option string) :=
  match j with
  | None => Ok None
  | Some JNull => Ok None
  | Some (JStr s) => Ok (Some s)
  | _ => Raise ValidationError
  end.

Fixpoint validate_str_list (l : list json) : result (list string) :=
  match l with
  | [] => Ok []
  | JStr s :: l' => let? r := validate_str_list l' in Ok (s :: r)
  | _ => Raise ValidationError
  end.

Definition validate_topics (j : option json) : result (list string) :=
  match j with
  | None => Ok []
  | Some (JArr l) => validate_str_list l
  | _ => Raise ValidationError
  end.

(** Subscripting a JSON value with a text key: only a dict has such keys. *)
Definition json_getitem (j : json) (k : string) : result json :=
  match j with
  | JObj kv => match dict_get k kv with
               | Some v => Ok v
               | None => Raise KeyError
               end
  | _ => Raise TypeError
  end.

Section index_projects.
Context {lib : PyLib}.

Definition validate_opt_datetime (j : option json)
  : result (option datetime) :=
  match j with
  | None => Ok None
  | Some JNull => Ok None
  | Some v => match validate_datetime v with
              | Some d => Ok (Some d)
              | None => Raise ValidationError
              end
  end.

(** Validation of one element of [projects]; keys that are no field of the
    model are ignored. *)
Definition validate_project (j : json) : result Project :=
  match j with
  | JObj kv =>
      let? source_ := validate_str (dict_get "source" kv) in
      let? type_ := validate_str (dict_get "type" kv) in
      let? name_ := validate_str (dict_get "name" kv) in
      let? full_name_ := validate_str (dict_get "full_name" kv) in
      let? description_ := validate_opt_str (dict_get "description" kv) in
      let? url_ := validate_str (dict_get "url" kv) in
      let? created := validate_opt_datetime (dict_get "created_at" kv) in
      let? updated := validate_opt_datetime (dict_get "updated_at" kv) in
      let? language_ := validate_opt_str (dict_get "language" kv) in
      let? topics_ := validate_topics (dict_get "topics" kv) in
      Ok (mkProject source_ type_ name_ full_name_ description_ url_
                    created updated language_ topics_)
  | _ => Raise ValidationError
  end.

Fixpoint validate_projects (l : list json) : result (list Project) :=
  match l with
  | [] => Ok []
  | j :: l' =>
      let? p := validate_project j in
      let? r := validate_projects l' in
      Ok (p :: r)
  end.

(** The constructor of the index class applied to the keys of [data]. *)
Definition ProjectIndex_of (now : string) (data : json) : result ProjectIndex :=
  match data with
  | JObj kv =>
      let? metadata_ :=
        match dict_get "metadata" kv with
        | None => Ok (metadata (new_index now))
        | Some (JObj m) => Ok m
        | Some _ => Raise ValidationError
        end in
      let? projects_ :=
        match dict_get "projects" kv with
        | None => Ok []
        | Some (JArr l) => validate_projects l
        | Some _ => Raise ValidationError
        end in
      Ok (mkIndex metadata_ projects_)
  | _ => Raise TypeError
  end.

Definition model_dump_index (idx : ProjectIndex) : json :=
  JObj [("metadata", JObj (metadata idx));
        ("projects", JArr (model_dump_project isoformat <$> projects idx))].

(** [index.to_json()] *)
Definition to_json (idx : ProjectIndex) : string :=
  model_dump_json_text (model_dump_index idx).

(** [json.load(f)] *)
Definition json_load (text : string) : result json :=
  match json_loads text with
  | Some j => Ok j
  | None => Raise JSONDecodeError
  end.

(** *** index_projects.py *)

Definition load_existing_index (output_file : list string)
  : M World (option ProjectIndex) :=
  let* w := get_state in
  let* there := lift_result (path_exists output_file w) in
  if negb there then ret None
  else
    try_except
      (let* text := open_read output_file in
       let* data := lift_result (json_load text) in
       let* index := lift_result (ProjectIndex_of (clock w) data) in
       logger_info "Loaded existing index with projects"
                   [length (projects index)] [] >>
       ret (Some index))
      (λ e, logger_warning "Could not load existing index" e >> ret None).

(** [type_counts[t] = type_counts.get(t, 0) + 1] over the projects. *)
Fixpoint count_types (l : list Project) (type_counts : list (string * nat))
  : list (string * nat) :=
  match l with
  | [] => type_counts
  | project :: l' =>
      count_types l'
        (dict_set (type project)
                  (S (default 0%nat (dict_get (type project) type_counts)))
                  type_counts)
  end.

Definition JNat (n : nat) : json := JNum (Z.of_nat n).

(** The index is updated in place; the updated index is the value. *)
Definition save_index (index : ProjectIndex) (output_file : list string)
  : M World ProjectIndex :=
  let* w := get_state in
  let github_count := length (get_by_source "GitHub" index) in
  let hf_count := length (get_by_source "HuggingFace" index) in
  let type_counts := count_types (projects index) [] in
  let index :=
    set_metadata
      (dict_set "types" (JObj (prod_map id JNat <$> type_counts))
         (dict_set "sources"
            (JObj [("GitHub", JNat github_count);
                   ("HuggingFace", JNat hf_count)])
            (dict_set "total_projects" (JNat (length (projects index)))
               (dict_set "generated_at" (JStr (clock w)) (metadata index)))))
      index in
  open_write output_file (to_json index) >>
  logger_info "Index saved" [] [] >>
  logger_info "Total projects" [length (projects index)] [] >>
  logger_info "  GitHub" [github_count] [] >>
  logger_info "  HuggingFace" [hf_count] [] >>
  ret index.

(** One block of [create_organized_output]. *)
Definition write_category (index : ProjectIndex) (output_dir : list string)
  (src type_ file_name : string) : M World unit :=
  let selected :=
    filter (λ p, source p = src ∧ type p = type_) (projects index) in
  if bool_decide (selected = []) then ret tt
  else
    open_write (output_dir ++ [file_name])
      (json_dumps (JArr (model_dump_project str_datetime <$> selected))) >>
    logger_info "Saved" [length selected] [src; type_].

Definition create_organized_output (index : ProjectIndex)
  (output_dir : list string) : M World unit :=
  mkdir_exist_ok output_dir >>
  write_category index output_dir "GitHub" "Repository"
                 "github_repositories.json" >>
  write_category index output_dir "GitHub" "Gist" "github_gists.json" >>
  write_category index output_dir "HuggingFace" "Model"
                 "huggingface_models.json" >>
  write_category index output_dir "HuggingFace" "Dataset"
                 "huggingface_datasets.json" >>
  write_category index output_dir "HuggingFace" "Space"
                 "huggingface_spaces.json".

(** [Indexer()]: [api_key or os.getenv(var)], refused when falsy.  The
    object is reduced to the key it holds. *)
Definition Indexer_init (var : string) (api_key : option string)
  : M World string :=
  let* w := get_state in
  let key := or_else api_key (dict_get var (environ w)) in
  if falsy_str key then raise ValueError else ret (default "" key).

Definition GitHubIndexer_init : option string → M World string :=
  Indexer_init "GITHUB_API_KEY".
Definition HuggingFaceIndexer_init : option string → M World string :=
  Indexer_init "HF_CLI".

(** [load_dotenv]: a variable of the file is set unless the environment
    has it already. *)
Definition load_dotenv : M World unit :=
  modify (λ w,
    set_environ
      (foldl (λ env kv, match dict_get kv.1 env with
                        | Some _ => env
                        | None => env ++ [kv]
                        end)
             (environ w) (dotenv w))
      w).

Definition log_file : list string := ["indexing.log"].
Definition data_dir : list string := ["data"].
Definition output_file : list string := data_dir ++ ["project_index.json"].
Definition organized_dir : list string := data_dir ++ ["organized"].

(** [try: p = fetch(); stats = index.merge_projects(p); log
     except Exception as e: log]; the index is a local object that a
    merge updates in place, so what a merge did before an exception
    stays. *)
Definition fetch_and_merge (what : string)
  (fetch : M World (list Project)) (index : ProjectIndex)
  : M World ProjectIndex :=
  let* fetched :=
    try_except
      (logger_info "Fetching" [] [what] >>
       let* fetched := fetch in ret (Some fetched))
      (λ e, logger_error "Error fetching" (Some e) >> ret None) in
  match fetched with
  | None => ret index
  | Some fetched =>
      match merge_projects fetched index with
      | (Ok stats, index') =>
          logger_info "added, updated" [added stats; updated stats] [what] >>
          ret index'
      | (Raise e, index') =>
          logger_error "Error fetching" (Some e) >> ret index'
      | (OutOfFuel, index') => lift_result OutOfFuel
      end
  end.

Definition rate_limit_remaining : M World unit :=
  try_except
    (let* rate_limit := check_rate_limit in
     let* rate := lift_result (json_getitem rate_limit "rate") in
     let* remaining := lift_result (json_getitem rate "remaining") in
     logger_info "GitHub API rate limit remaining" [] [])
    (λ e, logger_error "Error checking rate limit" (Some e)).

(** [try: indexer = Indexer() ... except Exception: indexer = None] *)
Definition try_init (what : string) (init : option string → M World string)
  : M World (option string) :=
  try_except
    (let* indexer := init None in
     logger_info "indexer initialized" [] [what] >>
     ret (Some indexer))
    (λ e, logger_error "Failed to initialize indexer" (Some e) >> ret None).

(** A message between two rules of sixty [=]. *)
Definition banner (msg : string) : M World unit :=
  modify (λ w,
    set_log (log w ++ [Log INFO "=" [60%nat] [] None;
                       Log INFO msg [] [] None;
                       Log INFO "=" [60%nat] [] None]) w).

Definition main (fuel : nat) : M World unit :=
  open_append log_file >>
  banner "Starting project indexing" >>
  load_dotenv >>
  mkdir_exist_ok data_dir >>
  let* github_indexer := try_init "GitHub" GitHubIndexer_init in
  let* hf_indexer := try_init "HuggingFace" HuggingFaceIndexer_init in
  if negb (bool_decide (is_Some github_indexer))
     && negb (bool_decide (is_Some hf_indexer))
  then logger_error "No indexers could be initialized. Exiting." None
  else
    let* loaded := load_existing_index output_file in
    let* index :=
      match loaded with
      | Some index =>
          logger_info "Using existing index for incremental update" [] [] >>
          ret index
      | None =>
          logger_info "Creating new index" [] [] >>
          let* w := get_state in ret (new_index (clock w))
      end in
    let* index :=
      match github_indexer with
      | Some _ =>
          let* index :=
            fetch_and_merge "GitHub repositories"
                            (fetch_public_repos fuel None) index in
          let* index :=
            fetch_and_merge "GitHub gists"
                            (fetch_public_gists fuel None) index in
          rate_limit_remaining >>
          ret index
      | None => ret index
      end in
    let* index :=
      match hf_indexer with
      | Some _ => fetch_and_merge "HuggingFace resources" (fetch_all None) index
      | None => ret index
      end in
    let* index :=
      match sort_by_date true index with
      | (Ok _, index') => ret index'
      | (Raise e, _) => raise e
      | (OutOfFuel, _) => lift_result OutOfFuel
      end in
    let* index := save_index index output_file in
    create_organized_output index organized_dir >>
    banner "Indexing complete!".

End index_projects.

(** *** Reference points for the fetchers *)

(** The records a [for] loop keeps from the items it is given. *)
Definition kept {A} (f : A → result (option Project)) (items : list A)
  : list Project :=
  omap (λ x, match f x with Ok o => o | _ => None end) items.

(** The requests for [n] successive pages of repositories. *)
Definition page_requests (username : string) (first n : nat) : list request :=
  (λ k, GET_user_repos username gh_per_page k) <$> seq first n.

Definition is_public_repo (r : raw_repo) : Prop :=
  option_truthy (r_private r) false = false.
Definition is_public_hf (item : raw_hf) : Prop :=
  option_truthy (h_private item) false = false.

(** A listing endpoint that holds [items] and serves the first [limit] of
    them. *)
Definition limited_listing (items : list raw_hf)
  : string → string → nat → result (list raw_hf) :=
  λ _ _ limit, Ok (take limit items).

Section parseable.
Context {lib : PyLib}.

(** A timestamp field that holds text [_parse_datetime] can read. *)
Definition parseable (v : option json) : Prop :=
  ∃ s d, v = Some (JStr s) ∧ fromisoformat (replace_Z s) = Some d.

End parseable.

(** *** Reference points for the run *)

(** The value a credential variable has once [load_dotenv] has run: the
    environment wins over the file. *)
Definition credential (var : string) (w : World) : option string :=
  match dict_get var (environ w) with
  | Some v => Some v
  | None => dict_get var (dotenv w)
  end.

(** An outcome of code without loops: a value or an exception. *)
Definition terminates {A} (r : result A) : Prop := r ≠ OutOfFuel.

(** The world after the warning [load_existing_index] logs. *)
Definition warned (e : exn) (w : World) : World :=
  set_log (log w ++ [Log WARNING "Could not load existing index" [] []
                         (Some e)]) w.

(** *** Reference points for the index operations *)

(** The identity pair of a record. *)
Definition pair_key (p : Project) : string * string :=
  (source p, full_name p).

(** The list a merge leaves behind, written by recursion on the list:
    overwrite the first record carrying the key, or append. *)
Fixpoint upsert (r : Project) (l : list Project) : list Project :=
  match l with
  | [] => [r]
  | x :: l' =>
      if decide (get_project_key x = get_project_key r) then r :: l'
      else x :: upsert r l'
  end.

Definition upsert_all (rs : list Project) (l : list Project) : list Project :=
  foldl (λ acc r, upsert r acc) l rs.

(** Indexes built from a fresh one by merges only. *)
Inductive reachable : ProjectIndex → Prop :=
  | reach_new now : reachable (new_index now)
  | reach_merge_one idx r :
      reachable idx → reachable (merge_project r idx).2
  | reach_merge_many idx rs :
      reachable idx → reachable (merge_projects rs idx).2.

Fixpoint has_colon (s : string) : bool :=
  match s with
  | EmptyString => false
  | String c s' => bool_decide (c = ":"%char) || has_colon s'
  end.

Module Samples.
Definition repo (src fn : string) (d : option string) : Project :=
  mkProject src "Repository" "r" fn d "https://example.org/r"
            None None None [].

Definition gh_one : Project := repo "GitHub" "u/one" None.
Definition gh_two : Project := repo "GitHub" "u/two" None.
Definition gh_two' : Project := repo "GitHub" "u/two" (Some "edited").
Definition gh_index : ProjectIndex := mkIndex [] [gh_one; gh_two].

(** Records that differ in their creation date only. *)
Definition dated (fn : string) (d : option datetime) : Project :=
  mkProject "HuggingFace" "Model" fn ("u/" +:+ fn) None
            "https://huggingface.co/u" d None None [].

(** 2020-01-01T00:00:00+00:00 and 2021-01-01T00:00:00+00:00, in
    microseconds since year 1, both with the offset of UTC. *)
Definition T1_aware : datetime := Datetime 63713433600000000 (Some 0).
Definition T2_aware : datetime := Datetime 63745056000000000 (Some 0).

(** A stand-in for the library: every non-empty text reads as a date. *)
Definition sample_date : datetime := Datetime 63713433600000000 (Some 0).
Definition sample_date_text : string := "2020-01-01T00:00:00+00:00".

(** An index with dated and undated records, and the JSON of its
    snapshot. *)
Definition saved_index : ProjectIndex :=
  mkIndex [("version", JStr "1.0")]
          [repo "GitHub" "u/one" (Some "first");
           dated "two" (Some sample_date);
           mkProject "GitHub" "Gist" "1" "u/gist:1" None
                     "https://gist.github.com/1" (Some sample_date)
                     (Some sample_date) (Some "Python") ["a"; "b"]].

Definition saved_json : json :=
  JObj [("metadata", JObj (metadata saved_index));
        ("projects",
         JArr (model_dump_project (λ _, sample_date_text)
                 <$> projects saved_index))].

Definition lib : PyLib := {|
  fromisoformat := λ s, if bool_decide (s = "") then None else Some sample_date;
  isoformat := λ _, sample_date_text;
  str_datetime := λ _, "2020-01-01 00:00:00+00:00";
  validate_datetime := λ j,
    match j with
    | JStr s => if bool_decide (s = sample_date_text) then Some sample_date
                else None
    | _ => None
    end;
  json_loads := λ s, if bool_decide (s = "snapshot") then Some saved_json
                     else None;
  json_dumps := λ _, "[]";
  model_dump_json_text := λ _, "snapshot"
|}.

Definition a_repo : raw_repo :=
  mkRawRepo (Some (JBool false)) "r" "u/r" None "https://github.com/u/r"
            "2020-01-01T00:00:00Z" "2020-01-01T00:00:00Z" None None.

(** An endpoint that serves pages of 100, 100 and 37 repositories. *)
Definition three_pages : Network := {|
  gh_user := Raise HTTPError;
  gh_repos := λ _ _ page,
    match page with
    | 1%nat | 2%nat => Ok (replicate 100 a_repo)
    | 3%nat => Ok (replicate 37 a_repo)
    | _ => Ok []
    end;
  gh_gists := λ _ _ _, Ok [];
  gh_rate_limit := Raise HTTPError;
  hf_whoami := Raise HTTPError;
  hf_listing := λ _ _ _, Ok []
|}.

Definition a_model : raw_hf :=
  mkRawHF None "u/m" None None None None None None None.

(** An account with 501 public models behind an endpoint that serves at
    most [limit] items for a request. *)
Definition crowded : Network := {|
  gh_user := Raise HTTPError;
  gh_repos := λ _ _ _, Ok [];
  gh_gists := λ _ _ _, Ok [];
  gh_rate_limit := Raise HTTPError;
  hf_whoami := Raise HTTPError;
  hf_listing := limited_listing (replicate 501 a_model)
|}.

(** A model whose creation date is a number and whose modification date is
    the empty text. *)
Definition odd_dates : raw_hf :=
  mkRawHF None "u/odd" None None (Some (JNum 1700000000)) (Some (JStr ""))
          None None None.

Definition world_of (n : Network) : World :=
  mkWorld [] [] ∅ n [] [] "2026-01-01T00:00:00".

(** A file name of 256 characters. *)
Definition long_name : string :=
  String.string_of_list_ascii (replicate 256 "x"%char).

Definition offline : Network := {|
  gh_user := Raise HTTPError;
  gh_repos := λ _ _ _, Raise HTTPError;
  gh_gists := λ _ _ _, Raise HTTPError;
  gh_rate_limit := Raise HTTPError;
  hf_whoami := Raise HTTPError;
  hf_listing := λ _ _ _, Raise HTTPError
|}.

(** A world whose data directory holds the snapshot of [saved_index]. *)
Definition world_with_snapshot : World :=
  mkWorld [] []
          (<[ ["data"; "project_index.json"] := File true "snapshot" ]>
             (<[ ["data"] := Dir ]> ∅))
          offline [] [] "2026-01-01T00:00:00".

(** A world with a snapshot and no credential at all: the token of one
    platform is set to the empty text, the other is not set. *)
Definition world_without_tokens : World :=
  mkWorld [("GITHUB_API_KEY", "")] [("OTHER", "x")]
          (<[ ["data"; "project_index.json"] := File true "snapshot" ]>
             (<[ ["data"] := Dir ]> ∅))
          offline [] [] "2026-01-01T00:00:00".

Definition undated_first : ProjectIndex :=
  mkIndex [] [dated "none" None; dated "one" (Some T1_aware);
              dated "two" (Some T2_aware)].
(** A world whose data directory holds the given text as its snapshot. *)
Definition world_holding (text : string) : World :=
  mkWorld [] []
          (<[ ["data"; "project_index.json"] := File true text ]>
             (<[ ["data"] := Dir ]> ∅))
          offline [] [] "2026-01-01T00:00:00".
End Samples.

(** ** A printer and a reader of JSON text

    One instance of the text layer of the library in which every value has
    a text of its own: a value is flattened to a tree, the tree is numbered
    and the number is written in binary digits. *)
Module Codec.
Definition leaf : Type := bool + Z + string.

Fixpoint to_tree (j : json) : gen_tree leaf :=
  match j with
  | JNull => GenNode 0 []
  | JBool b => GenLeaf (inl (inl b))
  | JNum z => GenLeaf (inl (inr z))
  | JStr s => GenLeaf (inr s)
  | JArr l => GenNode 1 (to_tree <$> l)
  | JObj kv =>
      GenNode 2 ((λ e, match e with
                       | (k, v) => GenNode 3 [GenLeaf (inr k); to_tree v]
                       end) <$> kv)
  end.

Fixpoint from_tree (t : gen_tree leaf) : json :=
  match t with
  | GenLeaf (inl (inl b)) => JBool b
  | GenLeaf (inl (inr z)) => JNum z
  | GenLeaf (inr s) => JStr s
  | GenNode 1 l => JArr (from_tree <$> l)
  | GenNode 2 l =>
      JObj ((λ e, match e with
                  | GenNode _ [GenLeaf (inr k); v] => (k, from_tree v)
                  | _ => ("", JNull)
                  end) <$> l)
  | GenNode _ _ => JNull
  end.

Fixpoint pos_text (p : positive) : string :=
  match p with
  | xH => ""
  | xO q => String "0" (pos_text q)
  | xI q => String "1" (pos_text q)
  end.

Fixpoint text_pos (s : string) : option positive :=
  match s with
  | EmptyString => Some xH
  | String c s' =>
      if bool_decide (c = "0"%char) then xO <$> text_pos s'
      else if bool_decide (c = "1"%char) then xI <$> text_pos s'
      else None
  end.

Definition dumps (j : json) : string := pos_text (encode (to_tree j)).

Definition loads (s : string) : option json :=
  match text_pos s with
  | Some n => from_tree <$> decode n
  | None => None
  end.

(** The dates of [Samples.lib] with the text layer above. *)
Definition lib : PyLib := {|
  fromisoformat := @fromisoformat Samples.lib;
  isoformat := @isoformat Samples.lib;
  str_datetime := @str_datetime Samples.lib;
  validate_datetime := @validate_datetime Samples.lib;
  json_loads := loads;
  json_dumps := dumps;
  model_dump_json_text := dumps
|}.
End Codec.

(** *** Reference points for the sort *)

(** Whether a datetime carries a UTC offset. *)
Definition dt_aware (d : datetime) : bool :=
  match dt_offset d with
  | Some _ => true
  | None => false
  end.

(** The value two datetimes of one kind are ordered by: the instant for
    aware ones, the local time for naive ones. *)
Definition dt_instant (d : datetime) : Z :=
  dt_ticks d - default 0 (dt_offset d).

(** The order [sort_by_date] is to establish between a record and a later
    one. *)
Definition date_ordered (reverse : bool) (a b : Project) : Prop :=
  if reverse then dt_instant (sort_key b) ≤ dt_instant (sort_key a)
  else dt_instant (sort_key a) ≤ dt_instant (sort_key b).

(** *** Reference points for saving *)

(** The index as [save_index] leaves it at the time [now]. *)
Definition stamped (now : string) (index : ProjectIndex) : ProjectIndex :=
  set_metadata
    (dict_set "types"
       (JObj (prod_map id JNat <$> count_types (projects index) []))
       (dict_set "sources"
          (JObj [("GitHub", JNat (length (get_by_source "GitHub" index)));
                 ("HuggingFace",
                  JNat (length (get_by_source "HuggingFace" index)))])
          (dict_set "total_projects" (JNat (length (projects index)))
             (dict_set "generated_at" (JStr now) (metadata index)))))
    index.

(** The export files: source, type and file name. *)
Definition export_files : list (string * string * string) :=
  [("GitHub", "Repository", "github_repositories.json");
   ("GitHub", "Gist", "github_gists.json");
   ("HuggingFace", "Model", "huggingface_models.json");
   ("HuggingFace", "Dataset", "huggingface_datasets.json");
   ("HuggingFace", "Space", "huggingface_spaces.json")].

(** The world once [fetch_and_merge] has announced what it fetches. *)
Definition announced (what : string) (w : World) : World :=
  set_log (log w ++ [Log INFO "Fetching" [] [what] None]) w.

(** *** Reference points for the gist fetch *)

(** The requests for [n] successive pages of gists. *)
Definition gist_page_requests (username : string) (first n : nat)
  : list request :=
  (λ k, GET_user_gists username gh_per_page k) <$> seq first n.


(** *** Reference points for the HuggingFace fetch *)

Section contribution.
Context {lib : PyLib}.

(** What a category adds to the result of [fetch_all]: the records of its
    listing, or nothing when its request failed. *)
Definition contribution (type_ url_prefix : string)
    (language_of : raw_hf → option string) (answer : result (list raw_hf))
  : list Project :=
  match answer with
  | Ok items => kept (hf_project type_ url_prefix language_of) items
  | _ => []
  end.

End contribution.

Fixpoint has_Z (s : string) : bool :=
  match s with
  | EmptyString => false
  | String c s' => bool_decide (c = "Z"%char) || has_Z s'
  end.

(** *** Reference points for validation *)

(** An outcome that is a value or a validation error. *)
Definition valid_or_refused {A} (r : result A) : Prop :=
  match r with
  | Ok _ => True
  | Raise e => e = ValidationError
  | OutOfFuel => False
  end.

Module MoreSamples.
Definition aware_pair : ProjectIndex :=
  mkIndex [] [Samples.dated "one" (Some Samples.T1_aware);
              Samples.dated "two" (Some Samples.T2_aware)].

(** A world with a data directory and no snapshot yet. *)
Definition fresh_world : World :=
  mkWorld [] [] (<[ ["data"] := Dir ]> ∅) Samples.offline [] []
          "2026-01-01T00:00:00".

Definition a_gist : raw_gist :=
  mkRawGist None None (Some [("notes.md", mkRawFile (Some "Markdown"))])
            "abc" "https://gist.github.com/abc"
            "2020-01-01T00:00:00Z" "2020-01-01T00:00:00Z".

(** A repository whose creation date is no date, public and private. *)
Definition bad_date_repo (private_ : bool) : raw_repo :=
  mkRawRepo (Some (JBool private_)) "r" "u/r" None "https://github.com/u/r"
            "" "2020-01-01T00:00:00Z" None None.

(** An endpoint with a single page: a private repository without a proper
    date, then two public ones. *)
Definition one_page (items : list raw_repo) : Network := {|
  gh_user := Raise HTTPError;
  gh_repos := λ _ _ page, match page with 1%nat => Ok items | _ => Ok [] end;
  gh_gists := λ _ _ page,
    match page with
    | 1%nat => Ok (replicate 100 a_gist)
    | 2%nat => Ok [a_gist; a_gist]
    | _ => Ok []
    end;
  gh_rate_limit := Raise HTTPError;
  hf_whoami := Raise HTTPError;
  hf_listing := λ _ _ _, Ok []
|}.

(** A platform whose model listing fails while datasets and spaces are
    listed. *)
Definition models_down : Network := {|
  gh_user := Raise HTTPError;
  gh_repos := λ _ _ _, Ok [];
  gh_gists := λ _ _ _, Ok [];
  gh_rate_limit := Raise HTTPError;
  hf_whoami := Raise HTTPError;
  hf_listing := λ category _ _,
    if bool_decide (category = "models") then Raise HTTPError
    else Ok [Samples.a_model]
|}.

(** An endpoint that has a full page of repositories for every page
    number. *)
Definition endless : Network := {|
  gh_user := Raise HTTPError;
  gh_repos := λ _ _ _, Ok (replicate 100 Samples.a_repo);
  gh_gists := λ _ _ _, Ok [];
  gh_rate_limit := Raise HTTPError;
  hf_whoami := Raise HTTPError;
  hf_listing := λ _ _ _, Ok []
|}.

(** A snapshot whose second record has no [url]. *)
Definition broken_json : json :=
  JObj [("metadata", JObj []);
        ("projects",
         JArr [model_dump_project (λ _, Samples.sample_date_text)
                 (Samples.repo "GitHub" "u/one" None);
               JObj [("source", JStr "GitHub"); ("type", JStr "Repository");
                     ("name", JStr "two"); ("full_name", JStr "u/two")]])].

Definition broken_lib : PyLib := {|
  fromisoformat := @fromisoformat Samples.lib;
  isoformat := @isoformat Samples.lib;
  str_datetime := @str_datetime Samples.lib;
  validate_datetime := @validate_datetime Samples.lib;
  json_loads := λ _, Some broken_json;
  json_dumps := λ _, "[]";
  model_dump_json_text := λ _, "{}"
|}.

(** An index with one repository and nothing else. *)
Definition one_repo : ProjectIndex :=
  mkIndex [] [mkProject "GitHub" "Repository" "r" "u/r" None
                        "https://github.com/u/r" None None None []].

(** A stand-in for the library that reads the text of the snapshot
    [save_index] writes for [Samples.saved_index] in [fresh_world]. *)
Definition stamped_json : json :=
  JObj [("metadata",
         JObj (metadata (stamped "2026-01-01T00:00:00" Samples.saved_index)));
        ("projects",
         JArr (model_dump_project (λ _, Samples.sample_date_text)
                 <$> projects Samples.saved_index))].

Definition lib : PyLib := {|
  fromisoformat := @fromisoformat Samples.lib;
  isoformat := @isoformat Samples.lib;
  str_datetime := @str_datetime Samples.lib;
  validate_datetime := @validate_datetime Samples.lib;
  json_loads := λ s, if bool_decide (s = "stamped") then Some stamped_json
                     else None;
  json_dumps := λ _, "[]";
  model_dump_json_text := λ _, "stamped"
|}.
End MoreSamples.

(** * Properties *)

Section index_store.
Implicit Types (p q r : Project) (l : list Project) (idx : ProjectIndex).

Lemma datetime_eq_refl (d : datetime) : datetime_eq d d = true.
Proof.
  unfold datetime_eq. destruct (dt_offset d); apply Z.eqb_refl.
Qed.

Lemma project_eq_refl p : project_eq p p = true.
Proof.
  unfold project_eq.
  rewrite !bool_decide_eq_true_2 by done. simpl.
  destruct (created_at p), (updated_at p); simpl;
    rewrite ?datetime_eq_refl; done.
Qed.

Lemma project_eq_key p q :
  project_eq p q = true → get_project_key p = get_project_key q.
Proof.
  unfold project_eq, get_project_key. intros H.
  repeat (apply andb_prop in H as [H ?]).
  repeat match goal with
         | E : bool_decide _ = true |- _ => apply bool_decide_eq_true_1 in E
         end.
  congruence.
Qed.

(** What [find_project] followed by [list.index] computes. *)
Lemma find_then_index r l :
  match find_project_in (get_project_key r) l with
  | Some e =>
      ∃ i : nat,
        (∀ n, list_index_from e l n = Ok (n + i)%nat)
        ∧ l !! i = Some e
        ∧ get_project_key e = get_project_key r
        ∧ <[i := r]> l = upsert r l
  | None =>
      upsert r l = l ++ [r]
      ∧ Forall (λ x, get_project_key x ≠ get_project_key r) l
  end.
Proof.
  induction l as [|x l IH]; simpl.
  - split; [done | constructor].
  - case_decide as Hk.
    + exists 0%nat. repeat split; try done.
      intros n. rewrite project_eq_refl. f_equal. lia.
    + destruct (find_project_in (get_project_key r) l) as [e|].
      * destruct IH as (i & Hidx & Hl & He & Hup).
        exists (S i). repeat split; try done.
        -- intros n. destruct (project_eq x e) eqn:Hxe.
           ++ apply project_eq_key in Hxe. congruence.
           ++ rewrite Hidx. f_equal. lia.
        -- simpl. by rewrite Hup.
      * destruct IH as [Hup Hall]. split; [by rewrite Hup|].
        by constructor.
Qed.

Lemma merge_project_run r idx :
  merge_project r idx =
    (Ok (bool_decide (find_project r idx = None)),
     set_projects (upsert r (projects idx)) idx).
Proof.
  unfold merge_project, bind, get_state, find_project. simpl.
  pose proof (find_then_index r (projects idx)) as H.
  destruct (find_project_in (get_project_key r) (projects idx)) as [e|].
  - destruct H as (i & Hidx & _ & _ & Hup).
    unfold lift_result, list_index. rewrite Hidx. simpl.
    unfold put_state, ret. by rewrite Hup.
  - destruct H as [Hup _]. unfold add_project, modify, ret.
    by rewrite Hup.
Qed.

Lemma find_project_in_None k l :
  find_project_in k l = None ↔ k ∉ get_project_key <$> l.
Proof.
  induction l as [|x l IH]; simpl.
  - split; [intros _; apply not_elem_of_nil | done].
  - rewrite not_elem_of_cons. case_decide as Hk.
    + split; [done | intros [Hne _]; by destruct Hne].
    + rewrite IH. split; [intros Hni; split; [congruence | done] | by intros [_ Hni]].
Qed.

Lemma find_project_in_Some k l e :
  find_project_in k l = Some e → e ∈ l ∧ get_project_key e = k.
Proof.
  induction l as [|x l IH]; simpl; [done|].
  case_decide.
  - intros [= ->]. split; [left | done].
  - intros H'. destruct (IH H'). split; [by right | done].
Qed.

Lemma keys_upsert_in r l :
  get_project_key r ∈ get_project_key <$> l →
  get_project_key <$> upsert r l = get_project_key <$> l.
Proof.
  induction l as [|x l IH]; simpl.
  - intros H. by apply elem_of_nil in H.
  - intros H. case_decide as Hk; simpl; [by rewrite Hk|].
    f_equal. apply IH. apply elem_of_cons in H as [H|H]; [congruence | done].
Qed.

Lemma keys_upsert_notin r l :
  get_project_key r ∉ get_project_key <$> l →
  get_project_key <$> upsert r l = (get_project_key <$> l) ++ [get_project_key r].
Proof.
  induction l as [|x l IH]; simpl; [done|].
  rewrite not_elem_of_cons. intros [Hne Hni].
  case_decide; [congruence|]. simpl. f_equal. by apply IH.
Qed.

Lemma keys_upsert_mono r l k :
  k ∈ get_project_key <$> l → k ∈ get_project_key <$> upsert r l.
Proof.
  intros H.
  destruct (decide (get_project_key r ∈ get_project_key <$> l)).
  - by rewrite keys_upsert_in.
  - rewrite keys_upsert_notin by done. apply elem_of_app. by left.
Qed.

Lemma keys_upsert_self r l :
  get_project_key r ∈ get_project_key <$> upsert r l.
Proof.
  destruct (decide (get_project_key r ∈ get_project_key <$> l)).
  - by rewrite keys_upsert_in.
  - rewrite keys_upsert_notin by done. apply elem_of_app. right.
    apply list_elem_of_singleton. done.
Qed.

Lemma NoDup_keys_upsert r l :
  NoDup (get_project_key <$> l) → NoDup (get_project_key <$> upsert r l).
Proof.
  intros H.
  destruct (decide (get_project_key r ∈ get_project_key <$> l)).
  - by rewrite keys_upsert_in.
  - rewrite keys_upsert_notin by done.
    apply NoDup_app. repeat split; [done | | apply NoDup_singleton].
    intros k Hk Hk'. apply list_elem_of_singleton in Hk'. by subst.
Qed.

Lemma find_upsert k r l :
  find_project_in k (upsert r l) =
    if decide (get_project_key r = k) then Some r else find_project_in k l.
Proof.
  induction l as [|x l IH]; simpl.
  - repeat case_decide; done.
  - repeat (case_decide; simpl; subst); try done; congruence.
Qed.

Lemma find_upsert_all k rs l :
  find_project_in k (upsert_all rs l) =
    match find_project_in k (reverse rs) with
    | Some x => Some x
    | None => find_project_in k l
    end.
Proof.
  revert l. induction rs as [|r rs IH]; intros l; simpl; [done|].
  rewrite reverse_cons. unfold upsert_all in *. simpl. rewrite IH.
  rewrite find_upsert.
  assert (Happ : ∀ a b, find_project_in k (a ++ b) =
                        match find_project_in k a with
                        | Some x => Some x
                        | None => find_project_in k b
                        end).
  { intros a b. induction a as [|x a IHa]; simpl; [done|].
    by case_decide. }
  rewrite Happ. destruct (find_project_in k (reverse rs)); [done|].
  simpl. by case_decide.
Qed.

Lemma NoDup_keys_upsert_all rs l :
  NoDup (get_project_key <$> l) →
  NoDup (get_project_key <$> upsert_all rs l).
Proof.
  revert l. induction rs as [|r rs IH]; intros l Hl; simpl; [done|].
  apply IH. by apply NoDup_keys_upsert.
Qed.

Lemma keys_upsert_all_mono rs l k :
  k ∈ get_project_key <$> l → k ∈ get_project_key <$> upsert_all rs l.
Proof.
  revert l. induction rs as [|r rs IH]; intros l Hl; simpl; [done|].
  apply IH. by apply keys_upsert_mono.
Qed.

Lemma keys_upsert_all_covers rs l r :
  r ∈ rs → get_project_key r ∈ get_project_key <$> upsert_all rs l.
Proof.
  revert l. induction rs as [|x rs IH]; intros l Hr; simpl.
  - by apply elem_of_nil in Hr.
  - apply elem_of_cons in Hr as [->|Hr].
    + apply keys_upsert_all_mono, keys_upsert_self.
    + by apply IH.
Qed.

Lemma keys_upsert_all_known rs l :
  (∀ r, r ∈ rs → get_project_key r ∈ get_project_key <$> l) →
  get_project_key <$> upsert_all rs l = get_project_key <$> l.
Proof.
  revert l. induction rs as [|x rs IH]; intros l Hin; simpl; [done|].
  assert (Hx : get_project_key x ∈ get_project_key <$> l)
    by (apply Hin; left).
  rewrite IH.
  - by apply keys_upsert_in.
  - intros r Hr. apply keys_upsert_mono, Hin. by right.
Qed.

(** A list with distinct keys is determined by its keys and its lookups. *)
Lemma keyed_list_ext l1 l2 :
  NoDup (get_project_key <$> l1) →
  get_project_key <$> l1 = get_project_key <$> l2 →
  (∀ k, find_project_in k l1 = find_project_in k l2) →
  l1 = l2.
Proof.
  revert l2. induction l1 as [|x l1 IH]; intros [|y l2] Hnd Hk Hf;
    simpl in *; try done.
  apply NoDup_cons in Hnd as [Hx Hnd]. injection Hk as Hxy Hk.
  assert (x = y) as ->.
  { specialize (Hf (get_project_key x)).
    rewrite !decide_True in Hf by done. congruence. }
  assert (Hk' : get_project_key <$> l1 = get_project_key <$> l2) by exact Hk.
  f_equal. apply IH; [done | done |].
  intros k. specialize (Hf k).
  destruct (decide (get_project_key y = k)) as [<-|Hne]; [|done].
  transitivity (@None Project); [|symmetry].
  - by apply find_project_in_None.
  - apply find_project_in_None. by rewrite <- Hk'.
Qed.

Lemma merge_projects_loop_run rs st idx :
  ∃ st',
    merge_projects_loop rs st idx =
      (Ok st', set_projects (upsert_all rs (projects idx)) idx).
Proof.
  revert st idx. induction rs as [|r rs IH]; intros st idx; simpl.
  - exists st. unfold ret. by destruct idx.
  - unfold bind. rewrite merge_project_run.
    edestruct IH as [st' ->]. by exists st'.
Qed.

Lemma merge_projects_loop_known rs st idx :
  (∀ r, r ∈ rs → get_project_key r ∈ get_project_key <$> projects idx) →
  merge_projects_loop rs st idx =
    (Ok (mkStats (added st) (updated st + length rs)),
     set_projects (upsert_all rs (projects idx)) idx).
Proof.
  revert st idx. induction rs as [|r rs IH]; intros st idx Hin; simpl.
  - unfold ret. rewrite Nat.add_0_r. by destruct idx, st.
  - unfold bind. rewrite merge_project_run.
    assert (Hr : get_project_key r ∈ get_project_key <$> projects idx)
      by (apply Hin; left).
    rewrite bool_decide_eq_false_2.
    2:{ unfold find_project. rewrite find_project_in_None. tauto. }
    rewrite IH; simpl.
    + do 2 f_equal. f_equal. lia.
    + intros r' Hr'. apply keys_upsert_mono, Hin. by right.
Qed.

Lemma reachable_NoDup_keys idx :
  reachable idx → NoDup (get_project_key <$> projects idx).
Proof.
  induction 1 as [now | idx r _ IH | idx rs _ IH]; simpl.
  - apply NoDup_nil_2.
  - rewrite merge_project_run. simpl. by apply NoDup_keys_upsert.
  - unfold merge_projects.
    destruct (merge_projects_loop_run rs (mkStats 0 0) idx) as [st' ->].
    simpl. by apply NoDup_keys_upsert_all.
Qed.

(** The key string is the pair, as long as no source holds a colon. *)
Lemma get_project_key_inj p q :
  has_colon (source p) = false → has_colon (source q) = false →
  get_project_key p = get_project_key q → pair_key p = pair_key q.
Proof.
  unfold get_project_key, pair_key.
  generalize (full_name p) (full_name q).
  generalize (source p) (source q).
  induction s as [|c s IH]; intros [|c' s'] f f'; simpl; intros Hs Hs' E.
  - by simplify_eq.
  - injection E as E _. subst c'.
    by rewrite bool_decide_eq_true_2 in Hs'.
  - injection E as E _. subst c.
    by rewrite bool_decide_eq_true_2 in Hs.
  - injection E as -> E.
    apply orb_false_elim in Hs as [_ Hs].
    apply orb_false_elim in Hs' as [_ Hs'].
    specialize (IH s' f f' Hs Hs' E). by simplify_eq.
Qed.

Lemma pair_key_get_project_key p q :
  pair_key p = pair_key q → get_project_key p = get_project_key q.
Proof. unfold pair_key, get_project_key. by intros [= -> ->]. Qed.
End index_store.

Section merge_claims.
Implicit Types (idx : ProjectIndex) (A B : Project).

Lemma filter_key_absent (k : string) (l : list Project) :
  k ∉ get_project_key <$> l →
  filter (λ p, get_project_key p = k) l = [].
Proof.
  induction l as [|x l IH]; simpl; [done|].
  rewrite not_elem_of_cons. intros [Hne Hni].
  rewrite filter_cons_False by congruence. by apply IH.
Qed.

Lemma filter_key_upsert B (l : list Project) :
  NoDup (get_project_key <$> l) →
  filter (λ p, get_project_key p = get_project_key B) (upsert B l) = [B].
Proof.
  induction l as [|x l IH]; simpl; intros Hnd.
  - by rewrite filter_cons_True.
  - apply NoDup_cons in Hnd as [Hx Hnd]. case_decide as Hk.
    + rewrite filter_cons_True by done. f_equal.
      apply filter_key_absent. by rewrite <- Hk.
    + rewrite filter_cons_False by done. by apply IH.
Qed.

(** With the key string of [get_project_key] as the key, and an index
    whose key strings are pairwise distinct: merging [B] overwrites the
    record that carries the key of [B] at its own position, reports an
    update and leaves [B] as the only record with that key; when no record
    carries the key, [B] is appended and an addition is reported. *)
Lemma merge_project_by_key idx B :
  NoDup (get_project_key <$> projects idx) →
  (∀ A, A ∈ projects idx → get_project_key A = get_project_key B →
     ∃ i : nat,
       projects idx !! i = Some A
       ∧ merge_project B idx =
           (Ok false, set_projects (<[i := B]> (projects idx)) idx)
       ∧ filter (λ p, get_project_key p = get_project_key B)
                (<[i := B]> (projects idx)) = [B])
  ∧ ((∀ A, A ∈ projects idx → get_project_key A ≠ get_project_key B) →
     merge_project B idx =
       (Ok true, set_projects (projects idx ++ [B]) idx)).
Proof.
  intros Hnd. rewrite merge_project_run. unfold find_project.
  pose proof (find_then_index B (projects idx)) as H.
  destruct (find_project_in (get_project_key B) (projects idx)) as [e|].
  - destruct H as (i & _ & Hi & He & Hup). split.
    + intros A HA HK. apply list_elem_of_lookup in HA as [j Hj].
      assert (j = i) as ->.
      { eapply NoDup_lookup; [exact Hnd | |];
          rewrite list_lookup_fmap; [rewrite Hj | rewrite Hi]; simpl;
          [reflexivity | congruence]. }
      exists i. split; [done|]. rewrite Hup. split.
      * by rewrite bool_decide_eq_false_2.
      * by apply filter_key_upsert.
    + intros Hno. exfalso. apply (Hno e); [|done].
      apply list_elem_of_lookup. by exists i.
  - destruct H as [Hup Hall]. split.
    + intros A HA HK. exfalso.
      rewrite Forall_forall in Hall. by apply (Hall A).
    + intros _. by rewrite bool_decide_eq_true_2, Hup.
Qed.

Lemma filter_iff_in {T : Type} (P Q : T → Prop) `{∀ x, Decision (P x)}
    `{∀ x, Decision (Q x)} (l : list T) :
  (∀ x, x ∈ l → P x ↔ Q x) → filter P l = filter Q l.
Proof.
  induction l as [|x l IH]; intros Hpq; [done|].
  assert (Hx : P x ↔ Q x) by (apply Hpq; left).
  assert (Hl : filter P l = filter Q l)
    by (apply IH; intros y Hy; apply Hpq; by right).
  destruct (decide (P x)) as [HP|HP].
  - rewrite !filter_cons_True by tauto. by rewrite Hl.
  - rewrite !filter_cons_False by tauto. done.
Qed.

Lemma NoDup_keys_of_pairs (l : list Project) :
  (∀ A, A ∈ l → has_colon (source A) = false) →
  NoDup (pair_key <$> l) → NoDup (get_project_key <$> l).
Proof.
  induction l as [|x l IH]; intros Hc Hnd; [constructor|].
  rewrite fmap_cons in Hnd. apply NoDup_cons in Hnd as [Hx Hnd].
  rewrite fmap_cons. apply NoDup_cons. split.
  - intros Hin. apply Hx.
    apply list_elem_of_fmap in Hin as (y & Hk & Hy).
    apply list_elem_of_fmap. exists y. split; [|done].
    apply get_project_key_inj; [apply Hc; left | apply Hc; by right | done].
  - apply IH; [|done]. intros A HA. apply Hc. by right.
Qed.

(** C1: in an index whose records carry pairwise distinct pairs
    (source, full_name), for sources without a colon (as [GitHub] and
    [HuggingFace]): merging a record [B] whose pair is the pair of a record
    [A] of the index overwrites [A] at its own position, reports an update
    ([false]) and leaves [B] as the only record with that pair; when no
    record carries the pair of [B], [B] is appended and an addition
    ([true]) is reported. *)
Theorem merge_project_by_pair idx B :
  NoDup (pair_key <$> projects idx) →
  (∀ A, A ∈ projects idx → has_colon (source A) = false) →
  has_colon (source B) = false →
  (∀ A, A ∈ projects idx → pair_key A = pair_key B →
     ∃ i : nat,
       projects idx !! i = Some A
       ∧ merge_project B idx =
           (Ok false, set_projects (<[i := B]> (projects idx)) idx)
       ∧ filter (λ p, pair_key p = pair_key B) (<[i := B]> (projects idx))
           = [B])
  ∧ ((∀ A, A ∈ projects idx → pair_key A ≠ pair_key B) →
     merge_project B idx =
       (Ok true, set_projects (projects idx ++ [B]) idx)).
Proof.
  intros Hnd Hc HB.
  destruct (merge_project_by_key idx B (NoDup_keys_of_pairs _ Hc Hnd))
    as [Hupd Hadd].
  split.
  - intros A HA HP.
    destruct (Hupd A HA (pair_key_get_project_key _ _ HP))
      as (i & Hi & Hm & Hf).
    exists i. split; [done|]. split; [done|].
    rewrite <- Hf. apply filter_iff_in. intros x Hx.
    assert (Hcx : has_colon (source x) = false).
    { apply list_elem_of_lookup in Hx as [j Hj].
      apply list_lookup_insert_Some in Hj as [(_ & <- & _)|[_ Hj]]; [done|].
      apply Hc. apply list_elem_of_lookup. by exists j. }
    split; [apply pair_key_get_project_key | by apply get_project_key_inj].
  - intros Hno. apply Hadd. intros A HA HK. apply (Hno A HA).
    apply get_project_key_inj; [by apply Hc | done | done].
Qed.

Lemma merge_project_by_pair_witness :
  ∃ i : nat,
    projects Samples.gh_index !! i = Some Samples.gh_two
    ∧ merge_project Samples.gh_two' Samples.gh_index =
        (Ok false,
         set_projects (<[i := Samples.gh_two']> (projects Samples.gh_index))
                      Samples.gh_index)
    ∧ filter (λ p, pair_key p = pair_key Samples.gh_two')
             (<[i := Samples.gh_two']> (projects Samples.gh_index))
        = [Samples.gh_two'].
Proof.
  refine (proj1 (merge_project_by_pair Samples.gh_index Samples.gh_two'
                   _ _ _) Samples.gh_two _ _).
  - apply (bool_decide_unpack (NoDup _)). vm_compute. exact I.
  - intros A HA. simpl in HA. rewrite !elem_of_cons in HA.
    destruct HA as [->|[->|HA]]; [reflexivity | reflexivity |].
    by apply elem_of_nil in HA.
  - reflexivity.
  - right; left.
  - reflexivity.
Defined.

(** In an index built by merges, two positions that hold records with the
    same source and the same full name are one position. *)
Lemma reachable_positions idx :
  reachable idx →
  ∀ (i j : nat) A B,
    projects idx !! i = Some A → projects idx !! j = Some B →
    source A = source B → full_name A = full_name B → i = j.
Proof.
  intros Hr i j A B Hi Hj Hs Hf.
  apply reachable_NoDup_keys in Hr.
  eapply NoDup_lookup; [exact Hr | |];
    rewrite list_lookup_fmap; [rewrite Hi | rewrite Hj]; simpl;
    [reflexivity|].
  unfold get_project_key. by rewrite Hs, Hf.
Qed.

(** C2: in every index built from a fresh one by [merge_project] and
    [merge_projects], the pairs (source, full_name) of the records are
    pairwise distinct. *)
Theorem key_uniqueness_reachable idx :
  reachable idx → NoDup (pair_key <$> projects idx).
Proof.
  intros Hr. apply reachable_NoDup_keys in Hr.
  apply (NoDup_fmap_1 (λ k : string * string, k.1 +:+ ":" +:+ k.2)).
  by rewrite <- list_fmap_compose.
Qed.

Lemma key_uniqueness_reachable_witness :
  NoDup (pair_key <$>
           projects (merge_projects
                       [Samples.gh_one; Samples.gh_two; Samples.gh_two']
                       (new_index "t")).2).
Proof.
  apply key_uniqueness_reachable.
  apply reach_merge_many, reach_new.
Defined.

(** C3: merging a sequence into a fresh index succeeds, and merging the
    same sequence again leaves the index as the first merge left it and
    reports every record as updated and none as added. *)
Theorem merge_projects_idempotent (now : string) (S : list Project) :
  ∃ st1 I1,
    merge_projects S (new_index now) = (Ok st1, I1)
    ∧ merge_projects S I1 = (Ok (mkStats 0 (length S)), I1).
Proof.
  unfold merge_projects.
  destruct (merge_projects_loop_run S (mkStats 0 0) (new_index now))
    as [st1 H1].
  eexists _, _. split; [exact H1|]. simpl.
  set (l1 := upsert_all S []).
  assert (Hcov : ∀ r, r ∈ S → get_project_key r ∈ get_project_key <$> l1)
    by (intros r Hr; by apply keys_upsert_all_covers).
  rewrite merge_projects_loop_known by done. simpl.
  f_equal. unfold set_projects. simpl. f_equal.
  symmetry. apply keyed_list_ext.
  - apply NoDup_keys_upsert_all, NoDup_nil_2.
  - symmetry. by apply keys_upsert_all_known.
  - intros k. unfold l1. rewrite !find_upsert_all.
    by destruct (find_project_in k (reverse S)).
Qed.
End merge_claims.

Section sort_claims.

Lemma datetime_lt_min_aware (d : datetime) (o : Z) :
  dt_offset d = Some o →
  datetime_lt datetime_min d = Raise TypeError
  ∧ datetime_lt d datetime_min = Raise TypeError.
Proof. intros H. unfold datetime_lt. simpl. by rewrite H. Qed.

(** An index that starts with an undated record followed by a record with a
    timezone-aware creation date cannot be sorted, in either direction. *)
Lemma sort_by_date_undated_then_aware (reverse : bool) (m : list (string * json))
    (r0 r1 : Project) (rest : list Project) (d : datetime) (o : Z) :
  created_at r0 = None → created_at r1 = Some d → dt_offset d = Some o →
  (sort_by_date reverse (mkIndex m (r0 :: r1 :: rest))).1 = Raise TypeError.
Proof.
  intros H0 H1 Ho.
  unfold sort_by_date, bind, get_state, lift_result, list_sort. simpl.
  unfold sort_key. rewrite H0, H1.
  destruct (datetime_lt_min_aware d o Ho) as [-> ->].
  by destruct reverse.
Qed.

(** With naive dates the order asked for comes out: the undated record
    goes last, the later date first. *)
Lemma sort_by_date_naive_three (m : list (string * json))
    (r0 r1 r2 : Project) (a b : Z) :
  created_at r0 = None →
  created_at r1 = Some (Datetime a None) →
  created_at r2 = Some (Datetime b None) →
  0 < a → a < b →
  sort_by_date true (mkIndex m [r0; r1; r2]) =
    (Ok tt, mkIndex m [r2; r1; r0]).
Proof.
  intros H0 H1 H2 Ha Hab.
  unfold sort_by_date, bind, get_state, lift_result, list_sort. simpl.
  assert (Ha' : (0 <? a) = true) by (apply Z.ltb_lt; lia).
  assert (Hab' : (a <? b) = true) by (apply Z.ltb_lt; lia).
  unfold sort_key, datetime_lt, datetime_min.
  rewrite H0, H1. simpl. rewrite Ha'. simpl.
  unfold sort_key, datetime_lt. rewrite H1, H2. simpl. rewrite Hab'.
  reflexivity.
Qed.

(** C6: on three records created at [None], 2020-01-01T00:00:00+00:00 and
    2021-01-01T00:00:00+00:00 the descending sort does not return the order
    [T2, T1, None]: it raises [TypeError], because the stand-in for an
    absent date, [datetime.min], is naive and the dates are aware. *)
Theorem sort_by_date_aware_raises :
  (sort_by_date true Samples.undated_first).1 = Raise TypeError.
Proof.
  by apply (sort_by_date_undated_then_aware true [] _ _ _ Samples.T1_aware 0).
Qed.

End sort_claims.

Section fetch_claims.
Context {lib : PyLib}.

Lemma session_get_run {A} (rq : request) (answer : Network → result A)
    (w : World) :
  session_get rq answer w = (answer (net w), set_sent (sent w ++ [rq]) w).
Proof. reflexivity. Qed.

Lemma for_each_kept {A} (f : A → result (option Project)) (items : list A)
    (acc : list Project) :
  (∀ x, x ∈ items → ∃ o, f x = Ok o) →
  for_each f items acc = Ok (acc ++ kept f items).
Proof.
  revert acc. induction items as [|x items IH]; intros acc Hok; simpl.
  - by rewrite app_nil_r.
  - destruct (Hok x) as [o Ho]; [left|]. unfold kept. simpl. rewrite Ho.
    assert (Hrest : ∀ y, y ∈ items → ∃ o, f y = Ok o)
      by (intros y Hy; apply Hok; by right).
    destruct o as [p|]; rewrite IH by done; [|done].
    by rewrite <- app_assoc.
Qed.

Lemma kept_app {A} (f : A → result (option Project)) (l1 l2 : list A) :
  kept f (l1 ++ l2) = kept f l1 ++ kept f l2.
Proof. apply omap_app. Qed.

Lemma kept_length_all {A} (f : A → result (option Project)) (items : list A) :
  (∀ x, x ∈ items → ∃ p, f x = Ok (Some p)) →
  length (kept f items) = length items.
Proof.
  induction items as [|x items IH]; intros Hok; [done|].
  unfold kept. simpl. destruct (Hok x) as [p ->]; [left|]. simpl.
  f_equal. apply IH. intros y Hy. apply Hok. by right.
Qed.

(** The loop asks for page after page and stops at the first page that
    holds fewer than [gh_per_page] items. *)
Lemma fetch_repos_loop_run (username : string) (full : list (list raw_repo))
    (short : list raw_repo) :
  ∀ (fuel page : nat) (projects : list Project) (w : World),
    (length full < fuel)%nat →
    Forall (λ pg, (gh_per_page ≤ length pg)%nat) full →
    (length short < gh_per_page)%nat →
    (∀ k pg, full !! k = Some pg →
       gh_repos (net w) username gh_per_page (page + k) = Ok pg) →
    gh_repos (net w) username gh_per_page (page + length full) = Ok short →
    (∀ r, r ∈ concat full ++ short → ∃ o, repo_project r = Ok o) →
    ∃ w',
      fetch_repos_loop username fuel page projects w =
        (Ok (projects ++ kept repo_project (concat full ++ short)), w')
      ∧ sent w' = sent w ++ page_requests username page (S (length full))
      ∧ net w' = net w ∧ fs w' = fs w.
Proof.
  induction full as [|pg full IH];
    intros fuel page projects w Hfuel Hfull Hshort Hpages Hlast Hok;
    (destruct fuel as [|fuel]; [simpl in Hfuel; lia|]).
  - simpl in *. rewrite Nat.add_0_r in Hlast.
    unfold bind at 1. rewrite session_get_run, Hlast.
    case_bool_decide as Hempty.
    + subst short. eexists. unfold ret. split; [by rewrite app_nil_r|].
      by simpl.
    + unfold bind, lift_result. rewrite for_each_kept by done.
      unfold logger_info, logger, modify. simpl.
      assert ((length short <? gh_per_page)%nat = true) as ->
        by (apply Nat.ltb_lt; lia).
      eexists. split; [reflexivity|]. by simpl.
  - apply Forall_cons in Hfull as [Hpg Hfull].
    assert (Hans : gh_repos (net w) username gh_per_page page = Ok pg).
    { rewrite <- (Nat.add_0_r page). by apply Hpages. }
    simpl. unfold bind at 1. rewrite session_get_run, Hans.
    rewrite bool_decide_eq_false_2.
    2:{ intros ->. unfold gh_per_page in Hpg. simpl in Hpg. lia. }
    unfold bind at 1. unfold lift_result at 1.
    rewrite for_each_kept.
    2:{ intros r Hr. apply Hok. simpl. rewrite <- app_assoc.
        apply elem_of_app. by left. }
    unfold bind at 1. unfold logger_info, logger, modify.
    assert ((length pg <? gh_per_page)%nat = false) as ->
      by (apply Nat.ltb_ge; lia).
    match goal with
    | |- ∃ _, fetch_repos_loop _ _ _ _ ?w1 = _ ∧ _ =>
        destruct (IH fuel (S page) (projects ++ kept repo_project pg) w1)
          as (w' & Hrun & Hsent & Hnet & Hfs)
    end.
    + simpl in Hfuel. lia.
    + done.
    + done.
    + intros k pg' Hk. simpl.
      replace (S (page + k)) with (page + S k)%nat by lia.
      by apply Hpages.
    + simpl. simpl in Hlast.
      by replace (S (page + length full)) with (page + S (length full))%nat
        by lia.
    + intros r Hr. apply Hok. simpl. rewrite <- app_assoc.
      apply elem_of_app. by right.
    + exists w'. split; [|split; [|split]].
      * rewrite Hrun. simpl. by rewrite <- !app_assoc, (kept_app _ pg).
      * rewrite Hsent. simpl. by rewrite <- app_assoc.
      * by rewrite Hnet.
      * by rewrite Hfs.
Qed.

Lemma fetch_public_repos_run (username : string) (full : list (list raw_repo))
    (short : list raw_repo) (fuel : nat) (w : World) :
  username ≠ "" →
  (length full < fuel)%nat →
  Forall (λ pg, (gh_per_page ≤ length pg)%nat) full →
  (length short < gh_per_page)%nat →
  (∀ k pg, full !! k = Some pg →
     gh_repos (net w) username gh_per_page (1 + k) = Ok pg) →
  gh_repos (net w) username gh_per_page (1 + length full) = Ok short →
  (∀ r, r ∈ concat full ++ short → ∃ o, repo_project r = Ok o) →
  ∃ w',
    fetch_public_repos fuel (Some username) w =
      (Ok (kept repo_project (concat full ++ short)), w')
    ∧ sent w' = sent w ++ page_requests username 1 (S (length full)).
Proof.
  intros Hu Hfuel Hfull Hshort Hpages Hlast Hok.
  unfold fetch_public_repos, resolve_username.
  rewrite bool_decide_eq_false_2 by done.
  unfold bind at 1. unfold ret at 1.
  unfold bind at 1. unfold logger_info, logger, modify.
  unfold bind at 1.
  match goal with
  | |- ∃ _, match fetch_repos_loop _ _ _ _ ?w1 with _ => _ end = _ ∧ _ =>
      destruct (fetch_repos_loop_run username full short fuel 1 [] w1)
        as (w' & Hrun & Hsent & _); try done
  end.
  rewrite Hrun. unfold bind, ret. simpl.
  eexists. split; [reflexivity|]. simpl. exact Hsent.
Qed.

(** C4: the repository fetch asks for page 1, 2, ... and stops exactly at
    the first page that holds fewer than 100 items (an empty page
    included): when the pages [full] hold at least 100 items each and the
    page after them, [short], fewer, the requests sent are those for pages
    [1 .. length full + 1] and the result is what the items of these pages
    map to.  In particular pages of 100, 100 and 37 public items cost
    exactly three requests and give 237 records. *)
Theorem fetch_public_repos_pagination :
  (∀ (username : string) (full : list (list raw_repo))
     (short : list raw_repo) (fuel : nat) (w : World),
     username ≠ "" →
     (length full < fuel)%nat →
     Forall (λ pg, (gh_per_page ≤ length pg)%nat) full →
     (length short < gh_per_page)%nat →
     (∀ k pg, full !! k = Some pg →
        gh_repos (net w) username gh_per_page (1 + k) = Ok pg) →
     gh_repos (net w) username gh_per_page (1 + length full) = Ok short →
     (∀ r, r ∈ concat full ++ short → ∃ o, repo_project r = Ok o) →
     ∃ w',
       fetch_public_repos fuel (Some username) w =
         (Ok (kept repo_project (concat full ++ short)), w')
       ∧ sent w' = sent w ++ page_requests username 1 (S (length full)))
  ∧ (∀ (username : string) (p1 p2 p3 : list raw_repo) (fuel : nat)
       (w : World),
       username ≠ "" → (3 ≤ fuel)%nat →
       length p1 = 100%nat → length p2 = 100%nat → length p3 = 37%nat →
       gh_repos (net w) username 100 1 = Ok p1 →
       gh_repos (net w) username 100 2 = Ok p2 →
       gh_repos (net w) username 100 3 = Ok p3 →
       (∀ r, r ∈ p1 ++ p2 ++ p3 → ∃ p, repo_project r = Ok (Some p)) →
       ∃ projects w',
         fetch_public_repos fuel (Some username) w = (Ok projects, w')
         ∧ length projects = 237%nat
         ∧ sent w' = sent w ++ [GET_user_repos username 100 1;
                                GET_user_repos username 100 2;
                                GET_user_repos username 100 3]).
Proof.
  split; [intros; by apply fetch_public_repos_run|].
  intros username p1 p2 p3 fuel w Hu Hfuel H1 H2 H3 Ha1 Ha2 Ha3 Hok.
  assert (Hf : (length [p1; p2] < fuel)%nat) by (simpl; lia).
  assert (Hfull : Forall (λ pg, (gh_per_page ≤ length pg)%nat) [p1; p2])
    by (unfold gh_per_page; repeat constructor; lia).
  assert (Hshort : (length p3 < gh_per_page)%nat)
    by (unfold gh_per_page; lia).
  assert (Hpages : ∀ k pg, [p1; p2] !! k = Some pg →
            gh_repos (net w) username gh_per_page (1 + k) = Ok pg).
  { intros [|[|k]] pg Hk; simpl in Hk; simplify_eq; done. }
  assert (Hok' : ∀ r, r ∈ concat [p1; p2] ++ p3 →
            ∃ o, repo_project r = Ok o).
  { simpl. rewrite app_nil_r. intros r Hr.
    destruct (Hok r) as [p Hp]; [by rewrite <- app_assoc in Hr|]. by eexists. }
  destruct (fetch_public_repos_run username [p1; p2] p3 fuel w
              Hu Hf Hfull Hshort Hpages Ha3 Hok') as (w' & Hrun & Hsent).
  eexists _, w'. split; [exact Hrun|]. split; [|exact Hsent].
  rewrite kept_length_all.
  - simpl. rewrite !length_app, H1, H2, H3. simpl. lia.
  - simpl. rewrite app_nil_r, <- app_assoc. exact Hok.
Qed.

End fetch_claims.

Lemma fetch_public_repos_pagination_witness :
  ∃ projects w',
    fetch_public_repos (lib := Samples.lib) 3 (Some "u")
                       (Samples.world_of Samples.three_pages)
      = (Ok projects, w')
    ∧ length projects = 237%nat
    ∧ sent w' = [GET_user_repos "u" 100 1; GET_user_repos "u" 100 2;
                 GET_user_repos "u" 100 3].
Proof.
  refine (proj2 (fetch_public_repos_pagination (lib := Samples.lib))
            "u" (replicate 100 Samples.a_repo) (replicate 100 Samples.a_repo)
            (replicate 37 Samples.a_repo) 3%nat
            (Samples.world_of Samples.three_pages) _ _ _ _ _ _ _ _ _).
  - done.
  - lia.
  - reflexivity.
  - reflexivity.
  - reflexivity.
  - reflexivity.
  - reflexivity.
  - reflexivity.
  - intros r Hr. eexists.
    rewrite !elem_of_app, !elem_of_replicate in Hr.
    assert (r = Samples.a_repo) as -> by (destruct Hr as [[-> _]|[[-> _]|[-> _]]]; done).
    reflexivity.
Defined.

Section huggingface_claims.
Context {lib : PyLib}.

Lemma parse_datetime_total (v : option json) :
  ∃ o, _parse_datetime v = Ok o ∧ (¬ parseable v → o = None).
Proof.
  destruct v as [j|]; simpl; [|by eexists].
  destruct (truthy j); simpl; [|by eexists].
  destruct j; simpl; try by eexists.
  unfold parse_iso_Z. destruct (fromisoformat (replace_Z s)) as [d|] eqn:E.
  - eexists. split; [done|]. intros Hn. destruct Hn. by exists s, d.
  - by eexists.
Qed.

Lemma hf_project_public (type_ url_prefix : string)
    (language_of : raw_hf → option string) (item : raw_hf) :
  is_public_hf item →
  ∃ p, hf_project type_ url_prefix language_of item = Ok (Some p)
       ∧ full_name p = h_id item
       ∧ (¬ parseable (h_createdAt item) → created_at p = None)
       ∧ (¬ parseable (h_lastModified item) → updated_at p = None).
Proof.
  intros Hpub. unfold hf_project. rewrite Hpub.
  destruct (parse_datetime_total (h_createdAt item)) as (c & -> & Hc).
  destruct (parse_datetime_total (h_lastModified item)) as (u & -> & Hu).
  eexists. split; [reflexivity|]. simpl. by repeat split.
Qed.

Lemma hf_project_total (type_ url_prefix : string)
    (language_of : raw_hf → option string) (item : raw_hf) :
  ∃ o, hf_project type_ url_prefix language_of item = Ok o
       ∧ (is_Some o ↔ is_public_hf item).
Proof.
  unfold hf_project, is_public_hf.
  destruct (option_truthy (h_private item) false) eqn:E.
  - eexists. split; [done|]. split; [by intros [? ?] | done].
  - destruct (parse_datetime_total (h_createdAt item)) as (c & -> & _).
    destruct (parse_datetime_total (h_lastModified item)) as (u & -> & _).
    eexists. split; [done|]. split; [done | by eexists].
Qed.

Lemma kept_hf_length (type_ url_prefix : string)
    (language_of : raw_hf → option string) (items : list raw_hf) :
  length (kept (hf_project type_ url_prefix language_of) items) =
  length (filter (λ i, option_truthy (h_private i) false = false) items).
Proof.
  induction items as [|item items IH]; [done|].
  unfold kept. simpl.
  destruct (hf_project_total type_ url_prefix language_of item)
    as (o & -> & Ho).
  destruct (decide (option_truthy (h_private item) false = false)) as [Hp|Hp].
  - rewrite filter_cons_True by done.
    destruct o as [p|]; [simpl; f_equal; apply IH|].
    apply Ho in Hp. by destruct Hp.
  - rewrite filter_cons_False by done.
    destruct o as [p|]; [|apply IH].
    destruct Hp. apply Ho. by eexists.
Qed.

(** A category fetch sends one request, whatever the listing holds. *)
Lemma fetch_category_run (category type_ url_prefix : string)
    (language_of : raw_hf → option string) (author : string)
    (items : list raw_hf) (w : World) :
  author ≠ "" →
  hf_listing (net w) category author hf_limit = Ok items →
  ∃ w',
    fetch_category category type_ url_prefix language_of (Some author) w =
      (Ok (kept (hf_project type_ url_prefix language_of) items), w')
    ∧ sent w' = sent w ++ [GET_listing category author hf_limit].
Proof.
  intros Ha Hans. unfold fetch_category, resolve_author.
  rewrite bool_decide_eq_false_2 by done.
  unfold bind at 1. unfold ret at 1.
  unfold bind at 1. unfold logger_info, logger, modify.
  unfold bind at 1. rewrite session_get_run. simpl. rewrite Hans.
  unfold bind, lift_result. rewrite for_each_kept.
  - simpl. unfold ret. eexists. split; [reflexivity|]. done.
  - intros item _.
    destruct (hf_project_total type_ url_prefix language_of item)
      as (o & Ho & _).
    by exists o.
Qed.

(** C10: [_parse_datetime] never raises and gives [None] for a field that
    is absent or holds no parseable text; every public item yields a record,
    with [None] for such a timestamp; and a category whose listing was
    answered yields one record per public item, whatever the timestamps
    are. *)
Theorem hf_timestamps_never_drop :
  (∀ v, ∃ o, _parse_datetime v = Ok o ∧ (¬ parseable v → o = None))
  ∧ (∀ type_ url_prefix language_of item,
       is_public_hf item →
       ∃ p, hf_project type_ url_prefix language_of item = Ok (Some p)
            ∧ full_name p = h_id item
            ∧ (¬ parseable (h_createdAt item) → created_at p = None)
            ∧ (¬ parseable (h_lastModified item) → updated_at p = None))
  ∧ (∀ category type_ url_prefix language_of author items w,
       author ≠ "" →
       hf_listing (net w) category author hf_limit = Ok items →
       ∃ projects w',
         fetch_category category type_ url_prefix language_of (Some author) w
           = (Ok projects, w')
         ∧ length projects =
           length (filter (λ i, option_truthy (h_private i) false = false)
                          items)).
Proof.
  split; [apply parse_datetime_total|].
  split; [intros; by apply hf_project_public|].
  intros category type_ url_prefix language_of author items w Ha Hans.
  destruct (fetch_category_run category type_ url_prefix language_of
              author items w Ha Hans) as (w' & Hrun & _).
  eexists _, w'. split; [exact Hrun|]. apply kept_hf_length.
Qed.

(** C5: against an account with 501 public models, served by an endpoint
    that honours the limit of a request, [fetch_public_models] sends a
    single request with limit 500 and returns 500 records: the 501st model
    is never asked for. *)
Theorem fetch_public_models_truncates :
  ∃ projects w',
    fetch_public_models (Some "u") (Samples.world_of Samples.crowded)
      = (Ok projects, w')
    ∧ sent w' = [GET_listing "models" "u" 500]
    ∧ length projects = 500%nat
    ∧ length (filter (λ i, option_truthy (h_private i) false = false)
                     (replicate 501 Samples.a_model)) = 501%nat.
Proof.
  destruct (fetch_category_run "models" "Model" "https://huggingface.co/"
              h_pipeline_tag "u" (take hf_limit (replicate 501 Samples.a_model))
              (Samples.world_of Samples.crowded))
    as (w' & Hrun & Hsent); [done | reflexivity |].
  eexists _, w'. split; [exact Hrun|]. split; [exact Hsent|].
  split; [|by vm_compute].
  rewrite kept_hf_length. by vm_compute.
Qed.

End huggingface_claims.

Lemma hf_timestamps_never_drop_witness :
  ∃ p, hf_project (lib := Samples.lib) "Model" "https://huggingface.co/"
         h_pipeline_tag Samples.odd_dates = Ok (Some p)
       ∧ full_name p = "u/odd"
       ∧ created_at p = None ∧ updated_at p = None.
Proof.
  destruct (proj1 (proj2 (hf_timestamps_never_drop (lib := Samples.lib)))
              "Model" "https://huggingface.co/" h_pipeline_tag
              Samples.odd_dates eq_refl) as (p & Hp & Hn & Hc & Hu).
  exists p. split; [exact Hp|]. split; [exact Hn|]. split.
  - apply Hc. intros (s & d & Hs & _). discriminate Hs.
  - apply Hu. intros (s & d & Hs & Hd). injection Hs as <-. discriminate Hd.
Defined.

Section snapshot_claims.
Context {lib : PyLib}.

Lemma result_bind_terminates {A B} (r : result A) (k : A → result B) :
  terminates r → (∀ a, terminates (k a)) → terminates (result_bind r k).
Proof. destruct r; simpl; [by intros _ H | done | done]. Qed.

Lemma validate_str_terminates (j : option json) : terminates (validate_str j).
Proof. by destruct j as [[]|]. Qed.

Lemma validate_opt_str_terminates (j : option json) :
  terminates (validate_opt_str j).
Proof. by destruct j as [[]|]. Qed.

Lemma validate_opt_datetime_terminates (j : option json) :
  terminates (validate_opt_datetime j).
Proof.
  destruct j as [j|]; [|done]. unfold validate_opt_datetime.
  destruct j; try done; by destruct (validate_datetime _).
Qed.

Lemma validate_str_list_terminates (l : list json) :
  terminates (validate_str_list l).
Proof.
  induction l as [|j l IH]; [done|]. destruct j; try done. simpl.
  by apply result_bind_terminates.
Qed.

Lemma validate_topics_terminates (j : option json) :
  terminates (validate_topics j).
Proof.
  destruct j as [[]|]; try done. apply validate_str_list_terminates.
Qed.

Lemma validate_project_terminates (j : json) : terminates (validate_project j).
Proof.
  destruct j; try done. unfold validate_project.
  repeat (apply result_bind_terminates;
          [first [ apply validate_str_terminates
                 | apply validate_opt_str_terminates
                 | apply validate_opt_datetime_terminates
                 | apply validate_topics_terminates ]
          | intros ?]).
  done.
Qed.

Lemma validate_projects_terminates (l : list json) :
  terminates (validate_projects l).
Proof.
  induction l as [|j l IH]; [done|]. simpl.
  apply result_bind_terminates; [apply validate_project_terminates|].
  intros p. by apply result_bind_terminates.
Qed.

Lemma ProjectIndex_of_terminates (now : string) (data : json) :
  terminates (ProjectIndex_of now data).
Proof.
  destruct data; try done. unfold ProjectIndex_of.
  apply result_bind_terminates.
  { by destruct (dict_get "metadata" kv) as [[]|]. }
  intros m. apply result_bind_terminates; [|done].
  destruct (dict_get "projects" kv) as [[]|]; try done.
  apply validate_projects_terminates.
Qed.

Lemma path_exists_file (p : list string) (w : World) (e : fentry) :
  fs w !! p = Some e → path_exists p w = Ok true.
Proof.
  intros H. unfold path_exists. rewrite (bool_decide_eq_true_2 (is_Some _)).
  - by rewrite orb_true_r.
  - by eexists.
Qed.

(** What [load_existing_index] does, case by case. *)
Lemma load_existing_index_run (p : list string) (w : World) :
  load_existing_index p w =
    match path_exists p w with
    | Ok true =>
        match fs w !! p with
        | Some (File true content) =>
            match json_loads content with
            | Some data =>
                match ProjectIndex_of (clock w) data with
                | Ok index =>
                    (Ok (Some index),
                     set_log (log w ++ [Log INFO
                                          "Loaded existing index with projects"
                                          [length (projects index)] [] None])
                             w)
                | Raise e => (Ok None, warned e w)
                | OutOfFuel => (OutOfFuel, w)
                end
            | None => (Ok None, warned JSONDecodeError w)
            end
        | _ => (Ok None, warned OSError w)
        end
    | Ok false => (Ok None, w)
    | Raise e => (Raise e, w)
    | OutOfFuel => (OutOfFuel, w)
    end.
Proof.
  unfold load_existing_index, bind at 1, get_state.
  unfold bind at 1, lift_result at 1.
  destruct (path_exists p w) as [[|]|e|]; simpl; [|done..].
  unfold try_except, bind at 1, open_read, bind at 1, get_state.
  destruct (fs w !! p) as [[[|] content|]|]; try done.
  unfold ret at 1. unfold bind at 1, lift_result at 1, json_load.
  destruct (json_loads content) as [data|]; [|done].
  unfold bind at 1, lift_result.
  by destruct (ProjectIndex_of (clock w) data).
Qed.

(** Once [exists()] has answered, nothing is raised: a path that is not
    there gives [None] without a word, and a file that cannot be read, that
    is no JSON, or whose JSON is no index gives [None] after one warning
    that carries the exception; the files are left as they are. *)
Lemma load_existing_index_after_exists (p : list string) (w : World) :
  ((∃ b, path_exists p w = Ok b) →
   ∃ r w', load_existing_index p w = (Ok r, w') ∧ fs w' = fs w)
  ∧ (path_exists p w = Ok false → load_existing_index p w = (Ok None, w))
  ∧ (∀ content, fs w !! p = Some (File false content) →
       load_existing_index p w = (Ok None, warned OSError w))
  ∧ (∀ content, fs w !! p = Some (File true content) →
       json_loads content = None →
       load_existing_index p w = (Ok None, warned JSONDecodeError w))
  ∧ (∀ content data e, fs w !! p = Some (File true content) →
       json_loads content = Some data →
       ProjectIndex_of (clock w) data = Raise e →
       load_existing_index p w = (Ok None, warned e w)).
Proof.
  rewrite load_existing_index_run. repeat split.
  - intros [b ->]. destruct b; [|by eexists _, _].
    destruct (fs w !! p) as [[[|] content|]|]; try by eexists _, _.
    destruct (json_loads content) as [data|]; [|by eexists _, _].
    pose proof (ProjectIndex_of_terminates (clock w) data) as Ht.
    destruct (ProjectIndex_of (clock w) data); [by eexists _, _ ..|].
    by destruct Ht.
  - by intros ->.
  - intros content H. by rewrite (path_exists_file _ _ _ H), H.
  - intros content H Hj. by rewrite (path_exists_file _ _ _ H), H, Hj.
  - intros content data e H Hj He.
    by rewrite (path_exists_file _ _ _ H), H, Hj, He.
Qed.

(** The call of [exists()] stands before the [try]: when it raises,
    [load_existing_index] raises. *)
Lemma load_existing_index_exists_raises (p : list string) (w : World) :
  is_dir p w = false → fs w !! p = None → name_too_long p = true →
  load_existing_index p w = (Raise OSError, w).
Proof.
  intros Hd Hf Hn. rewrite load_existing_index_run. unfold path_exists.
  rewrite Hd, Hf, Hn. rewrite bool_decide_eq_false_2; [done|].
  by intros [? ?].
Qed.

(** C7: for a path of one component of 256 characters, with nothing at
    that path, loading the prior snapshot does not give "no prior index":
    it raises the [OSError] of [exists()], which the [try] does not
    cover. *)
Theorem load_existing_index_name_too_long :
  load_existing_index [Samples.long_name] (Samples.world_of Samples.offline)
  = (Raise OSError, Samples.world_of Samples.offline).
Proof. by apply load_existing_index_exists_raises. Qed.

End snapshot_claims.

Ltac decide_keys :=
  match goal with
  | |- context [decide (?a = ?b)] =>
      destruct (decide (a = b)) as [?|?]; [try discriminate | try congruence]
  end.

Section round_trip.
Context {lib : PyLib}.

Lemma validate_str_list_dump (l : list string) :
  validate_str_list (JStr <$> l) = Ok l.
Proof.
  induction l as [|x l IH]; [done|].
  rewrite fmap_cons. cbn [validate_str_list]. by rewrite IH.
Qed.

Lemma validate_opt_datetime_dump (o : option datetime) :
  (∀ d, o = Some d → validate_datetime (JStr (isoformat d)) = Some d) →
  validate_opt_datetime (Some (opt_json (λ d, JStr (isoformat d)) o)) = Ok o.
Proof.
  intros H. destruct o as [d|]; simpl; [|done]. by rewrite (H d).
Qed.

Lemma validate_opt_str_dump (o : option string) :
  validate_opt_str (Some (opt_json JStr o)) = Ok o.
Proof. by destruct o. Qed.

Lemma validate_project_dump (p : Project) :
  (∀ d, created_at p = Some d ∨ updated_at p = Some d →
        validate_datetime (JStr (isoformat d)) = Some d) →
  validate_project (model_dump_project isoformat p) = Ok p.
Proof.
  intros H. unfold validate_project, model_dump_project.
  cbn [dict_get]. repeat decide_keys. cbn [validate_str result_bind].
  rewrite validate_opt_str_dump. cbn [result_bind].
  rewrite !validate_opt_datetime_dump by (intros d Hd; apply H; tauto).
  cbn [result_bind]. rewrite validate_opt_str_dump. cbn [result_bind].
  cbn [validate_topics]. rewrite validate_str_list_dump. cbn [result_bind].
  by destruct p.
Qed.

Lemma validate_projects_dump (l : list Project) :
  (∀ p d, p ∈ l → created_at p = Some d ∨ updated_at p = Some d →
          validate_datetime (JStr (isoformat d)) = Some d) →
  validate_projects (model_dump_project isoformat <$> l) = Ok l.
Proof.
  induction l as [|p l IH]; intros H; [done|].
  rewrite fmap_cons. cbn [validate_projects].
  rewrite validate_project_dump by (intros d Hd; apply (H p); [left | done]).
  cbn [result_bind]. rewrite IH; [done|].
  intros q d Hq. apply H. by right.
Qed.

Lemma ProjectIndex_of_dump (now : string) (idx : ProjectIndex) :
  (∀ p d, p ∈ projects idx → created_at p = Some d ∨ updated_at p = Some d →
          validate_datetime (JStr (isoformat d)) = Some d) →
  ProjectIndex_of now (model_dump_index idx) = Ok idx.
Proof.
  intros H. unfold ProjectIndex_of, model_dump_index.
  cbn [dict_get]. repeat decide_keys. cbn [result_bind].
  rewrite validate_projects_dump by done. cbn [result_bind].
  by destruct idx.
Qed.

Lemma wf_json_strings (l : list string) :
  forallb wf_json (JStr <$> l) = true.
Proof. by induction l. Qed.

Lemma wf_json_dump_project (render : datetime → string) (r : Project) :
  wf_json (model_dump_project render r) = true.
Proof.
  unfold model_dump_project. cbn [wf_json]. apply andb_true_intro. split.
  - apply bool_decide_eq_true. apply (bool_decide_unpack (NoDup _)).
    vm_compute. exact I.
  - cbn [forallb wf_json]. rewrite wf_json_strings.
    by destruct (description r), (created_at r), (updated_at r),
                (language r).
Qed.

Lemma wf_json_dump_projects (render : datetime → string) (l : list Project) :
  forallb wf_json (model_dump_project render <$> l) = true.
Proof.
  induction l as [|r l IH]; [done|].
  rewrite fmap_cons. cbn [forallb].
  by rewrite wf_json_dump_project, IH.
Qed.

Lemma wf_json_dump_index (idx : ProjectIndex) :
  wf_json (JObj (metadata idx)) = true →
  wf_json (model_dump_index idx) = true.
Proof.
  intros Hmeta. unfold model_dump_index.
  change (wf_json (JObj (metadata idx))
          && (forallb wf_json
                (model_dump_project isoformat <$> projects idx) && true)
          = true).
  by rewrite Hmeta, wf_json_dump_projects.
Qed.

(** C8: for every index whose metadata is a value Python can hold, with a
    library whose reader gives back every such value from the text its
    printer wrote for it, and which reads back the date texts it printed for
    this index: when the file at [p] holds the snapshot text of the index,
    loading [p] gives an index with the same records, field for field and
    in the same order. *)
Theorem snapshot_round_trip (idx : ProjectIndex) (p : list string) (w : World) :
  (∀ j, wf_json j = true → json_loads (model_dump_json_text j) = Some j) →
  wf_json (JObj (metadata idx)) = true →
  (∀ r d, r ∈ projects idx → created_at r = Some d ∨ updated_at r = Some d →
          validate_datetime (JStr (isoformat d)) = Some d) →
  fs w !! p = Some (File true (to_json idx)) →
  ∃ idx' w',
    load_existing_index p w = (Ok (Some idx'), w')
    ∧ projects idx' = projects idx.
Proof.
  intros Hlib Hmeta Hdates Hfile.
  rewrite load_existing_index_run, (path_exists_file _ _ _ Hfile), Hfile.
  simpl. unfold to_json.
  rewrite (Hlib _ (wf_json_dump_index idx Hmeta)).
  rewrite ProjectIndex_of_dump by done.
  by eexists _, _.
Qed.

End round_trip.

Lemma json_nested_ind (P : json → Prop) :
  P JNull → (∀ b, P (JBool b)) → (∀ z, P (JNum z)) → (∀ s, P (JStr s)) →
  (∀ l, Forall P l → P (JArr l)) →
  (∀ kv, Forall (λ e, P e.2) kv → P (JObj kv)) →
  ∀ j, P j.
Proof.
  intros HN HB HZ HS HA HO. fix IH 1.
  intros [|b|z|s|l|kv];
    [apply HN | apply HB | apply HZ | apply HS | apply HA | apply HO].
  - induction l as [|x l IHl]; constructor; [apply IH | exact IHl].
  - induction kv as [|[k v] kv IHkv]; constructor; [apply IH | exact IHkv].
Qed.

Lemma codec_from_to_tree (j : json) :
  Codec.from_tree (Codec.to_tree j) = j.
Proof.
  induction j as [|b|z|s|l IH|kv IH] using json_nested_ind; try done.
  - cbn [Codec.to_tree Codec.from_tree]. f_equal.
    induction IH as [|x l Hx _ IHl]; [done|].
    rewrite !fmap_cons. by rewrite Hx, IHl.
  - cbn [Codec.to_tree Codec.from_tree]. f_equal.
    induction IH as [|[k v] kv Hx _ IHkv]; [done|].
    rewrite !fmap_cons. simpl in Hx. by rewrite Hx, IHkv.
Qed.

Lemma codec_text_pos_text (n : positive) :
  Codec.text_pos (Codec.pos_text n) = Some n.
Proof.
  induction n as [n IH|n IH|]; [| |done].
  - cbn [Codec.pos_text Codec.text_pos].
    rewrite bool_decide_eq_false_2 by done.
    rewrite bool_decide_eq_true_2 by done. by rewrite IH.
  - cbn [Codec.pos_text Codec.text_pos].
    rewrite bool_decide_eq_true_2 by done. by rewrite IH.
Qed.

(** The reader of [Codec] gives back every value from its text. *)
Lemma codec_loads_dumps (j : json) :
  Codec.loads (Codec.dumps j) = Some j.
Proof.
  unfold Codec.loads, Codec.dumps.
  rewrite codec_text_pos_text, decode_encode. simpl.
  by rewrite codec_from_to_tree.
Qed.

Lemma snapshot_round_trip_witness :
  ∃ idx' w',
    load_existing_index (lib := Codec.lib) ["data"; "project_index.json"]
      (Samples.world_holding (to_json (lib := Codec.lib) Samples.saved_index))
    = (Ok (Some idx'), w')
    ∧ projects idx' = projects Samples.saved_index.
Proof.
  apply (snapshot_round_trip (lib := Codec.lib) Samples.saved_index
           ["data"; "project_index.json"]
           (Samples.world_holding
              (to_json (lib := Codec.lib) Samples.saved_index))).
  - intros j _. apply codec_loads_dumps.
  - reflexivity.
  - intros r d Hr Hd.
    assert (d = Samples.sample_date) as ->; [|reflexivity].
    simpl in Hr. rewrite !elem_of_cons in Hr.
    destruct Hr as [->|[->|[->|Hr]]]; simpl in Hd;
      [| | |by apply elem_of_nil in Hr];
      destruct Hd as [Hd|Hd]; congruence.
  - apply lookup_insert_eq.
Defined.

Section run_claims.
Context {lib : PyLib}.

Lemma dict_get_app {V} (k : string) (a b : list (string * V)) :
  dict_get k (a ++ b) =
    match dict_get k a with
    | Some v => Some v
    | None => dict_get k b
    end.
Proof.
  induction a as [|[k' v] a IH]; simpl; [done|]. by case_decide.
Qed.

(** The environment after [load_dotenv]. *)
Lemma load_dotenv_lookup (var : string) (file env : list (string * string)) :
  dict_get var
    (foldl (λ env kv, match dict_get kv.1 env with
                      | Some _ => env
                      | None => env ++ [kv]
                      end) env file)
  = match dict_get var env with
    | Some v => Some v
    | None => dict_get var file
    end.
Proof.
  revert env. induction file as [|[k v] file IH]; intros env; simpl.
  - by destruct (dict_get var env).
  - rewrite IH. destruct (dict_get k env) as [v'|] eqn:Ek; simpl.
    + destruct (dict_get var env) eqn:Ev; [done|].
      case_decide; [congruence | done].
    + rewrite dict_get_app. destruct (dict_get var env) eqn:Ev; [done|].
      simpl. by case_decide.
Qed.

Lemma load_dotenv_run (w : World) :
  ∃ w', load_dotenv w = (Ok tt, w')
        ∧ (∀ var, dict_get var (environ w') = credential var w)
        ∧ fs w' = fs w ∧ sent w' = sent w.
Proof.
  eexists. split; [reflexivity|]. split; [|done].
  intros var. apply load_dotenv_lookup.
Qed.

(** Without a credential the constructor raises and the indexer is [None]. *)
Lemma try_init_without_credential (what var : string) (w : World) :
  falsy_str (dict_get var (environ w)) = true →
  ∃ w', try_init what (Indexer_init var) w = (Ok None, w')
        ∧ environ w' = environ w ∧ fs w' = fs w ∧ sent w' = sent w.
Proof.
  intros H. unfold try_init, try_except, bind at 1, Indexer_init.
  unfold bind at 1, get_state. unfold or_else. simpl. rewrite H. simpl.
  by eexists.
Qed.

Lemma open_append_frame (p : list string) (w : World) :
  ∃ r w', open_append p w = (r, w')
          ∧ (r = Ok tt ∨ (r = Raise OSError ∧ w' = w))
          ∧ environ w' = environ w ∧ dotenv w' = dotenv w
          ∧ sent w' = sent w
          ∧ ∀ q, q ≠ p → fs w' !! q = fs w !! q.
Proof.
  unfold open_append, bind, get_state.
  destruct p as [|c p]; [by eexists _, _; split; [|split; [right|]]|].
  destruct (fs w !! (c :: p)) as [[]|] eqn:E.
  - eexists _, _. split; [done|]. split; [by left|]. done.
  - eexists _, _. split; [done|]. split; [by right|]. done.
  - destruct (is_dir (parent (c :: p)) w).
    + eexists _, _. split; [done|]. split; [by left|].
      repeat split. intros q Hq. simpl. by rewrite lookup_insert_ne.
    + eexists _, _. split; [done|]. split; [by right|]. done.
Qed.

Lemma mkdir_exist_ok_frame (p : list string) (w : World) :
  ∃ r w', mkdir_exist_ok p w = (r, w')
          ∧ (r = Ok tt ∨ (r = Raise OSError ∧ w' = w))
          ∧ environ w' = environ w ∧ dotenv w' = dotenv w
          ∧ sent w' = sent w
          ∧ ∀ q, q ≠ p → fs w' !! q = fs w !! q.
Proof.
  unfold mkdir_exist_ok, bind, get_state.
  destruct (is_dir p w).
  { eexists _, _. split; [done|]. split; [by left|]. done. }
  destruct (fs w !! p) as [e|] eqn:E.
  { eexists _, _. split; [done|]. split; [by right|]. done. }
  destruct (is_dir (parent p) w).
  - eexists _, _. split; [done|]. split; [by left|].
    repeat split. intros q Hq. simpl. by rewrite lookup_insert_ne.
  - eexists _, _. split; [done|]. split; [by right|]. done.
Qed.

(** C9: when neither platform has a credential, the run ends before any
    fetch and before any write of data: it returns normally (or stops on
    an [OSError] while it sets up the log file and the data directory), no
    request has been sent, and every path other than the log file and the
    data directory is as it was, the snapshot and the export files among
    them. *)
Theorem main_without_indexers (fuel : nat) (w : World) :
  falsy_str (credential "GITHUB_API_KEY" w) = true →
  falsy_str (credential "HF_CLI" w) = true →
  ∃ r w',
    main fuel w = (r, w')
    ∧ (r = Ok tt ∨ r = Raise OSError)
    ∧ sent w' = sent w
    ∧ (∀ q, q ≠ log_file → q ≠ data_dir → fs w' !! q = fs w !! q)
    ∧ fs w' !! output_file = fs w !! output_file
    ∧ (∀ q, fs w' !! (organized_dir ++ q) = fs w !! (organized_dir ++ q)).
Proof.
  intros Hgh Hhf.
  assert (Hframe : ∃ r w', main fuel w = (r, w')
            ∧ (r = Ok tt ∨ r = Raise OSError)
            ∧ sent w' = sent w
            ∧ (∀ q, q ≠ log_file → q ≠ data_dir → fs w' !! q = fs w !! q)).
  { unfold main. unfold bind at 1.
    destruct (open_append_frame log_file w)
      as (r0 & w0 & -> & [-> | [-> ->]] & He0 & Hd0 & Hs0 & Hf0).
    2:{ eexists _, _. split; [done|]. split; [by right|]. done. }
    unfold bind at 1. unfold banner at 1, modify.
    unfold bind at 1.
    match goal with
    | |- context [load_dotenv ?w1] =>
        destruct (load_dotenv_run w1) as (w2 & -> & Henv2 & Hf2 & Hs2)
    end.
    unfold bind at 1.
    destruct (mkdir_exist_ok_frame data_dir w2)
      as (r3 & w3 & -> & [-> | [-> ->]] & He3 & Hd3 & Hs3 & Hf3).
    2:{ eexists _, _. split; [done|]. split; [by right|].
        split; [by rewrite Hs2|].
        intros q Hq _. rewrite Hf2. simpl. by apply Hf0. }
    assert (Hcred : ∀ var, dict_get var (environ w3) = credential var w).
    { intros var. rewrite He3, Henv2. unfold credential. simpl.
      by rewrite He0, Hd0. }
    unfold bind at 1.
    destruct (try_init_without_credential "GitHub" "GITHUB_API_KEY" w3)
      as (w4 & Hi4 & He4 & Hf4 & Hs4); [by rewrite Hcred|].
    unfold GitHubIndexer_init. rewrite Hi4.
    unfold bind at 1.
    destruct (try_init_without_credential "HuggingFace" "HF_CLI" w4)
      as (w5 & Hi5 & He5 & Hf5 & Hs5); [by rewrite He4, Hcred|].
    unfold HuggingFaceIndexer_init. rewrite Hi5.
    rewrite !bool_decide_eq_false_2 by (by intros [? ?]).
    simpl. eexists _, _. split; [reflexivity|]. split; [by left|].
    simpl. split.
    - by rewrite Hs5, Hs4, Hs3, Hs2.
    - intros q Hq1 Hq2. rewrite Hf5, Hf4, Hf3, Hf2 by done. simpl.
      by apply Hf0. }
  destruct Hframe as (r & w' & Hrun & Hr & Hsent & Hfs).
  exists r, w'. repeat split; try done.
  - by apply Hfs.
  - intros q. by apply Hfs.
Qed.

End run_claims.

Lemma main_without_indexers_witness :
  ∃ r w',
    main (lib := Samples.lib) 5 Samples.world_without_tokens = (r, w')
    ∧ (r = Ok tt ∨ r = Raise OSError)
    ∧ sent w' = []
    ∧ fs w' !! ["data"; "project_index.json"] = Some (File true "snapshot").
Proof.
  destruct (main_without_indexers (lib := Samples.lib) 5
              Samples.world_without_tokens eq_refl eq_refl)
    as (r & w' & Hrun & Hr & Hsent & _ & Hfile & _).
  exists r, w'. split; [exact Hrun|]. split; [exact Hr|].
  split; [exact Hsent|]. etrans; [exact Hfile | reflexivity].
Defined.

(** * Further properties of the index store *)

Section index_store_more.
Implicit Types (p q r : Project) (l : list Project) (idx : ProjectIndex).

(** X1: after [merge_project r] a lookup by a record with the key of [r]
    finds [r]; a lookup by any other key finds what it found before. *)
Theorem find_after_merge_project r q idx :
  find_project q (merge_project r idx).2 =
    if decide (get_project_key r = get_project_key q) then Some r
    else find_project q idx.
Proof. rewrite merge_project_run. apply find_upsert. Qed.

Lemma length_upsert r l :
  length (upsert r l) =
    if decide (get_project_key r ∈ get_project_key <$> l) then length l
    else S (length l).
Proof.
  pose proof (length_fmap get_project_key (upsert r l)) as H.
  case_decide as Hin.
  - rewrite keys_upsert_in in H by done. by rewrite length_fmap in H.
  - rewrite keys_upsert_notin in H by done.
    rewrite length_app, length_fmap in H. simpl in H. lia.
Qed.

(** X2: [merge_project] never raises; it answers [true] exactly when no
    record of the index had the key, and the index has grown by one record
    exactly then; the metadata is left alone. *)
Theorem merge_project_flag_length r idx :
  ∃ (b : bool) idx',
    merge_project r idx = (Ok b, idx')
    ∧ (b = true ↔ get_project_key r ∉ get_project_key <$> projects idx)
    ∧ length (projects idx') =
        (length (projects idx) + (if b then 1 else 0))%nat
    ∧ metadata idx' = metadata idx.
Proof.
  rewrite merge_project_run. eexists _, _. split; [reflexivity|].
  unfold find_project. split; [|split; [|done]].
  - rewrite <- find_project_in_None. apply bool_decide_eq_true.
  - simpl. rewrite length_upsert.
    case_decide as Hin.
    + rewrite bool_decide_eq_false_2; [lia|].
      rewrite find_project_in_None. tauto.
    + rewrite bool_decide_eq_true_2; [lia|].
      by rewrite find_project_in_None.
Qed.

Lemma merge_projects_loop_counts rs :
  ∀ st idx, ∃ st' idx',
    merge_projects_loop rs st idx = (Ok st', idx')
    ∧ (added st' + updated st' = added st + updated st + length rs)%nat
    ∧ (length (projects idx') + added st
       = length (projects idx) + added st')%nat.
Proof.
  induction rs as [|r rs IH]; intros st idx; simpl.
  - eexists _, _. split; [reflexivity|]. lia.
  - unfold bind.
    destruct (merge_project_flag_length r idx)
      as (b & idx1 & -> & _ & Hlen & _).
    edestruct IH as (st' & idx' & -> & Hsum & Hl).
    eexists _, _. split; [reflexivity|].
    destruct b; simpl in *; lia.
Qed.

(** X3: [merge_projects] never raises; every record of the batch is
    counted once, as added or as updated, and the index has grown by the
    number of records added. *)
Theorem merge_projects_counts (rs : list Project) idx :
  ∃ st idx',
    merge_projects rs idx = (Ok st, idx')
    ∧ (added st + updated st = length rs)%nat
    ∧ length (projects idx') = (length (projects idx) + added st)%nat.
Proof.
  unfold merge_projects.
  destruct (merge_projects_loop_counts rs (mkStats 0 0) idx)
    as (st & idx' & -> & Hsum & Hl).
  eexists _, _. split; [reflexivity|]. simpl in *. lia.
Qed.

Lemma merge_projects_run (rs : list Project) idx :
  (merge_projects rs idx).2 = set_projects (upsert_all rs (projects idx)) idx.
Proof.
  unfold merge_projects.
  by destruct (merge_projects_loop_run rs (mkStats 0 0) idx) as [st ->].
Qed.

(** X4: after a batch merge a lookup finds the last record of the batch
    that carries the key, and what the index held before when the batch has
    no record with the key: a later duplicate of a batch overwrites an
    earlier one. *)
Theorem find_after_merge_projects (rs : list Project) q idx :
  find_project q (merge_projects rs idx).2 =
    match find_project_in (get_project_key q) (reverse rs) with
    | Some x => Some x
    | None => find_project q idx
    end.
Proof. rewrite merge_projects_run. apply find_upsert_all. Qed.

Lemma keys_upsert_prefix r l :
  (get_project_key <$> l) `prefix_of` (get_project_key <$> upsert r l).
Proof.
  destruct (decide (get_project_key r ∈ get_project_key <$> l)).
  - by rewrite keys_upsert_in.
  - rewrite keys_upsert_notin by done. by apply prefix_app_r.
Qed.

(** X5: a batch merge keeps the keys the index had, each at its position;
    the keys it brings in come after them. *)
Theorem merge_projects_keeps_positions (rs : list Project) idx :
  (get_project_key <$> projects idx)
    `prefix_of` (get_project_key <$> projects (merge_projects rs idx).2).
Proof.
  rewrite merge_projects_run. simpl.
  generalize (projects idx). induction rs as [|r rs IH]; intros l; [done|].
  simpl. etrans; [apply (keys_upsert_prefix r)|]. apply IH.
Qed.

(** X6: for two records whose sources hold no colon the key strings agree
    exactly when source and full name agree. *)
Theorem key_string_decides_pair p q :
  has_colon (source p) = false → has_colon (source q) = false →
  get_project_key p = get_project_key q ↔ pair_key p = pair_key q.
Proof.
  intros Hp Hq. split.
  - by apply get_project_key_inj.
  - apply pair_key_get_project_key.
Qed.

Lemma key_string_decides_pair_witness :
  get_project_key Samples.gh_two = get_project_key Samples.gh_two'
  ↔ pair_key Samples.gh_two = pair_key Samples.gh_two'.
Proof.
  apply (key_string_decides_pair Samples.gh_two Samples.gh_two');
    reflexivity.
Defined.

Lemma filter_key_upsert_count r l :
  length (filter (λ p, get_project_key p = get_project_key r) (upsert r l)) =
  (length (filter (λ p, get_project_key p = get_project_key r) l)
     `max` 1)%nat.
Proof.
  induction l as [|x l IH]; simpl.
  - by rewrite filter_cons_True.
  - case_decide as Hk.
    + rewrite !filter_cons_True by done. simpl. lia.
    + rewrite !filter_cons_False by done. apply IH.
Qed.

(** X7: a merge does not clean up an index that already holds several
    records with the key of the merged record: it overwrites the first and
    leaves the others, so their number stays (and is one when there was
    none). *)
Theorem merge_project_key_count r idx :
  length (filter (λ p, get_project_key p = get_project_key r)
                 (projects (merge_project r idx).2)) =
  (length (filter (λ p, get_project_key p = get_project_key r)
                  (projects idx)) `max` 1)%nat.
Proof. rewrite merge_project_run. apply filter_key_upsert_count. Qed.

End index_store_more.

(** * Further properties of the sort *)

Section sort_more.
Implicit Types (p q x y : Project) (l : list Project).

Lemma datetime_lt_same_kind (a b : datetime) :
  dt_aware a = dt_aware b →
  datetime_lt a b = Ok (dt_instant a <? dt_instant b).
Proof.
  unfold dt_aware, datetime_lt, dt_instant.
  destruct (dt_offset a), (dt_offset b); simpl; try done;
    intros _; by rewrite ?Z.sub_0_r.
Qed.

Lemma datetime_lt_other_kind (a b : datetime) :
  dt_aware a ≠ dt_aware b → datetime_lt a b = Raise TypeError.
Proof.
  unfold dt_aware, datetime_lt.
  by destruct (dt_offset a), (dt_offset b).
Qed.

Lemma sort_insert_same_kind (reverse : bool) x l :
  (∀ y, y ∈ l → dt_aware (sort_key y) = dt_aware (sort_key x)) →
  StronglySorted (date_ordered reverse) l →
  ∃ l', sort_insert reverse x l = Ok l'
        ∧ l' ≡ₚ x :: l
        ∧ StronglySorted (date_ordered reverse) l'.
Proof.
  induction l as [|y l IH]; intros Hk Hs; simpl.
  - eexists. split; [done|]. split; [done|]. repeat constructor.
  - assert (Hy : dt_aware (sort_key y) = dt_aware (sort_key x))
      by (apply Hk; left).
    apply StronglySorted_inv in Hs as [Hs Hall].
    assert (Hcmp :
      (if reverse then datetime_lt (sort_key y) (sort_key x)
       else datetime_lt (sort_key x) (sort_key y)) =
      Ok (if reverse then dt_instant (sort_key y) <? dt_instant (sort_key x)
          else dt_instant (sort_key x) <? dt_instant (sort_key y))).
    { destruct reverse; by rewrite datetime_lt_same_kind. }
    rewrite Hcmp. clear Hcmp.
    destruct (if reverse
              then dt_instant (sort_key y) <? dt_instant (sort_key x)
              else dt_instant (sort_key x) <? dt_instant (sort_key y))
      eqn:Hlt.
    + eexists. split; [done|]. split; [done|].
      constructor; [by constructor|].
      rewrite Forall_forall in Hall. apply Forall_forall.
      intros z Hz. apply elem_of_cons in Hz as [->|Hz].
      * unfold date_ordered. destruct reverse; apply Z.ltb_lt in Hlt; lia.
      * specialize (Hall z Hz). unfold date_ordered in *.
        destruct reverse; apply Z.ltb_lt in Hlt; lia.
    + destruct IH as (l' & -> & Hperm & Hs');
        [intros z Hz; apply Hk; by right | done |].
      eexists. split; [done|]. split.
      * rewrite Hperm. apply Permutation_swap.
      * constructor; [done|].
        rewrite Forall_forall in Hall. apply Forall_forall.
        intros z Hz. rewrite Hperm in Hz.
        apply elem_of_cons in Hz as [->|Hz]; [|by apply Hall].
        unfold date_ordered. destruct reverse; apply Z.ltb_ge in Hlt; lia.
Qed.

Lemma list_sort_from_same_kind (reverse : bool) l :
  ∀ sorted,
    (∀ p q, p ∈ sorted ++ l → q ∈ sorted ++ l →
            dt_aware (sort_key p) = dt_aware (sort_key q)) →
    StronglySorted (date_ordered reverse) sorted →
    ∃ l', list_sort_from reverse sorted l = Ok l'
          ∧ l' ≡ₚ sorted ++ l
          ∧ StronglySorted (date_ordered reverse) l'.
Proof.
  induction l as [|x l IH]; intros sorted Hk Hs; simpl.
  - eexists. split; [done|]. by rewrite app_nil_r.
  - destruct (sort_insert_same_kind reverse x sorted)
      as (s' & -> & Hperm & Hs'); [|done|].
    { intros y Hy. apply Hk; rewrite elem_of_app; [by left|].
      right. left. }
    destruct (IH s') as (l' & -> & Hperm' & Hs''); [|done|].
    { intros p q Hp Hq. apply Hk.
      - rewrite Hperm in Hp. by rewrite <- Permutation_middle.
      - rewrite Hperm in Hq. by rewrite <- Permutation_middle. }
    eexists. split; [done|]. split; [|done].
    rewrite Hperm', Hperm. by rewrite <- Permutation_middle.
Qed.

(** X8: when the sort keys of an index are all of one kind (all
    timezone-aware, or all naive with [datetime.min] standing in for the
    absent dates), [sort_by_date] succeeds, keeps the records (it only
    permutes them) and leaves them in the order asked for: latest first
    with [reverse=True], earliest first otherwise. *)
Theorem sort_by_date_same_kind (reverse : bool) (idx : ProjectIndex) :
  (∀ p q, p ∈ projects idx → q ∈ projects idx →
          dt_aware (sort_key p) = dt_aware (sort_key q)) →
  ∃ l', sort_by_date reverse idx = (Ok tt, set_projects l' idx)
        ∧ l' ≡ₚ projects idx
        ∧ StronglySorted (date_ordered reverse) l'.
Proof.
  intros Hk.
  destruct (list_sort_from_same_kind reverse (projects idx) [])
    as (l' & Hrun & Hperm & Hs); [done | constructor |].
  exists l'. split; [|by split].
  unfold sort_by_date, bind, get_state, lift_result, list_sort.
  by rewrite Hrun.
Qed.

Lemma sort_by_date_same_kind_witness :
  ∃ l', sort_by_date true MoreSamples.aware_pair
          = (Ok tt, set_projects l' MoreSamples.aware_pair)
        ∧ l' ≡ₚ projects MoreSamples.aware_pair
        ∧ StronglySorted (date_ordered true) l'.
Proof.
  apply (sort_by_date_same_kind true MoreSamples.aware_pair).
  intros p q Hp Hq. simpl in Hp, Hq.
  rewrite !elem_of_cons in Hp. rewrite !elem_of_cons in Hq.
  destruct Hp as [->|[->|Hp]]; [| |by apply elem_of_nil in Hp];
    (destruct Hq as [->|[->|Hq]]; [| |by apply elem_of_nil in Hq]);
    reflexivity.
Defined.

Lemma sort_insert_other_kind (reverse : bool) x y l :
  dt_aware (sort_key y) ≠ dt_aware (sort_key x) →
  sort_insert reverse x (y :: l) = Raise TypeError.
Proof.
  intros H. simpl. destruct reverse.
  - by rewrite datetime_lt_other_kind.
  - by rewrite datetime_lt_other_kind.
Qed.

Lemma sort_insert_same_kind_perm (reverse : bool) x l :
  (∀ y, y ∈ l → dt_aware (sort_key y) = dt_aware (sort_key x)) →
  ∃ l', sort_insert reverse x l = Ok l' ∧ l' ≡ₚ x :: l.
Proof.
  induction l as [|y l IH]; intros Hk; simpl; [by eexists|].
  assert (Hy : dt_aware (sort_key y) = dt_aware (sort_key x))
    by (apply Hk; left).
  assert (Hcmp : ∃ c : bool,
    (if reverse then datetime_lt (sort_key y) (sort_key x)
     else datetime_lt (sort_key x) (sort_key y)) = Ok c).
  { destruct reverse; rewrite datetime_lt_same_kind by done; by eexists. }
  destruct Hcmp as [c ->]. destruct c; [by eexists|].
  destruct IH as (l' & -> & Hperm); [intros w Hw; apply Hk; by right|].
  eexists. split; [done|]. rewrite Hperm. apply Permutation_swap.
Qed.

Lemma list_sort_from_other_kind (reverse : bool) l :
  ∀ sorted (k : bool),
    sorted ≠ [] →
    (∀ y, y ∈ sorted → dt_aware (sort_key y) = k) →
    (∃ x, x ∈ l ∧ dt_aware (sort_key x) ≠ k) →
    list_sort_from reverse sorted l = Raise TypeError.
Proof.
  induction l as [|x l IH]; intros sorted k Hne Hk (z & Hz & Hzk).
  - by apply elem_of_nil in Hz.
  - simpl. destruct (decide (dt_aware (sort_key x) = k)) as [Hx|Hx].
    + destruct (sort_insert_same_kind_perm reverse x sorted)
        as (s' & -> & Hperm).
      { intros y Hy. rewrite Hx. by apply Hk. }
      apply (IH s' k).
      * intros ->. by apply Permutation_nil_cons in Hperm.
      * intros y Hy. rewrite Hperm in Hy.
        apply elem_of_cons in Hy as [->|Hy]; [done | by apply Hk].
      * exists z. split; [|done].
        apply elem_of_cons in Hz as [->|Hz]; [done | done].
    + destruct sorted as [|y s]; [done|].
      rewrite sort_insert_other_kind; [done|].
      rewrite (Hk y); [congruence | left].
Qed.

(** X9: when an index holds two records whose sort keys are of different
    kinds (one timezone-aware, the other naive or absent), [sort_by_date]
    raises [TypeError], in either direction. *)
Theorem sort_by_date_mixed_kinds (reverse : bool) (idx : ProjectIndex) p q :
  p ∈ projects idx → q ∈ projects idx →
  dt_aware (sort_key p) ≠ dt_aware (sort_key q) →
  (sort_by_date reverse idx).1 = Raise TypeError.
Proof.
  intros Hp Hq Hpq.
  unfold sort_by_date, bind, get_state, lift_result, list_sort.
  destruct (projects idx) as [|x l] eqn:E; [by apply elem_of_nil in Hp|].
  simpl.
  rewrite (list_sort_from_other_kind reverse l [x] (dt_aware (sort_key x)));
    [done | done | |].
  - intros y Hy. apply list_elem_of_singleton in Hy. by subst.
  - destruct (decide (dt_aware (sort_key p) = dt_aware (sort_key x)))
      as [Hpx|Hpx].
    + exists q. split; [|congruence].
      apply elem_of_cons in Hq as [->|Hq]; [congruence | done].
    + exists p. split; [|done].
      apply elem_of_cons in Hp as [->|Hp]; [done | done].
Qed.

Lemma sort_by_date_mixed_kinds_witness :
  (sort_by_date false Samples.undated_first).1 = Raise TypeError.
Proof.
  apply (sort_by_date_mixed_kinds false Samples.undated_first
           (Samples.dated "none" None)
           (Samples.dated "two" (Some Samples.T2_aware))).
  - left.
  - right; right; left.
  - discriminate.
Defined.

End sort_more.

(** * Further properties of saving and exporting *)

Section save_more.
Context {lib : PyLib}.

Lemma dict_get_set {V} (k k' : string) (v : V) (d : list (string * V)) :
  dict_get k (dict_set k' v d) =
    if decide (k' = k) then Some v else dict_get k d.
Proof.
  induction d as [|[k0 v0] d IH]; simpl.
  - by case_decide.
  - destruct (decide (k0 = k')) as [->|Hne]; simpl.
    + repeat case_decide; congruence.
    + rewrite IH. repeat case_decide; congruence.
Qed.

Lemma count_types_get (t : string) (l : list Project) :
  ∀ acc,
    dict_get t (count_types l acc) =
      match length (filter (λ p, type p = t) l), dict_get t acc with
      | O, o => o
      | S n, o => Some (S n + default 0 o)%nat
      end.
Proof.
  induction l as [|p l IH]; intros acc; simpl; [done|].
  rewrite IH, dict_get_set.
  destruct (decide (type p = t)) as [<-|Hne].
  - rewrite filter_cons_True by done. simpl.
    destruct (length (filter (λ p0, type p0 = type p) l)); simpl;
      f_equal; lia.
  - by rewrite filter_cons_False by done.
Qed.

(** X10: the type counts [save_index] puts into the metadata have an entry
    for exactly the types that occur in the index, each with the number of
    records of that type. *)
Theorem count_types_counts (t : string) (l : list Project) :
  dict_get t (count_types l []) =
    match length (filter (λ p, type p = t) l) with
    | O => None
    | S n => Some (S n)
    end.
Proof.
  rewrite count_types_get. simpl.
  destruct (length (filter (λ p, type p = t) l)); [done|].
  f_equal. lia.
Qed.

Lemma open_write_run (p : list string) (content : string) (w : World) :
  p ≠ [] → is_dir (parent p) w = true → fs w !! p ≠ Some Dir →
  ∃ r, open_write p content w =
         (Ok tt, set_fs (<[p := File r content]> (fs w)) w)
       ∧ (fs w !! p = None → r = true)
       ∧ (∀ c r', fs w !! p = Some (File r' c) → r = r').
Proof.
  intros Hp Hd Hf. unfold open_write, bind, get_state. rewrite Hd. simpl.
  destruct p as [|c p]; [done|].
  destruct (fs w !! (c :: p)) as [[r c'|]|] eqn:E; [| done |].
  - exists r. split; [done|]. split; [done|]. by intros ? ? [= <- _].
  - exists true. by split.
Qed.

Lemma save_index_run (index : ProjectIndex) (p : list string) (w : World) :
  p ≠ [] → is_dir (parent p) w = true → fs w !! p ≠ Some Dir →
  ∃ r w',
    save_index index p w = (Ok (stamped (clock w) index), w')
    ∧ fs w' = <[p := File r (to_json (stamped (clock w) index))]> (fs w)
    ∧ (fs w !! p = None → r = true)
    ∧ (∀ c r', fs w !! p = Some (File r' c) → r = r')
    ∧ clock w' = clock w ∧ sent w' = sent w.
Proof.
  intros Hp Hd Hf. unfold save_index. unfold bind at 1, get_state.
  fold (stamped (clock w) index).
  destruct (open_write_run p (to_json (stamped (clock w) index)) w Hp Hd Hf)
    as (r & Hrun & Hnew & Hold).
  unfold bind at 1. rewrite Hrun.
  eexists r, _. split; [reflexivity|]. done.
Qed.

(** X11: when the directory of the snapshot exists and the snapshot path
    is no directory, [save_index] succeeds: the records are untouched, the
    file holds the text of the saved index and no other path changes; the
    metadata carries the time, the number of records and the counts per
    source and per type, and keeps every other entry it had. *)
Theorem save_index_writes (index : ProjectIndex) (p : list string)
    (w : World) :
  p ≠ [] → is_dir (parent p) w = true → fs w !! p ≠ Some Dir →
  ∃ index' w',
    save_index index p w = (Ok index', w')
    ∧ projects index' = projects index
    ∧ (∃ r, fs w' !! p = Some (File r (to_json index')))
    ∧ (∀ q, q ≠ p → fs w' !! q = fs w !! q)
    ∧ dict_get "generated_at" (metadata index') = Some (JStr (clock w))
    ∧ dict_get "total_projects" (metadata index')
        = Some (JNat (length (projects index)))
    ∧ dict_get "sources" (metadata index')
        = Some (JObj [("GitHub", JNat (length (get_by_source "GitHub" index)));
                      ("HuggingFace",
                       JNat (length (get_by_source "HuggingFace" index)))])
    ∧ dict_get "types" (metadata index')
        = Some (JObj (prod_map id JNat <$> count_types (projects index) []))
    ∧ (∀ k, k ∉ ["generated_at"; "total_projects"; "sources"; "types"] →
            dict_get k (metadata index') = dict_get k (metadata index)).
Proof.
  intros Hp Hd Hf.
  destruct (save_index_run index p w Hp Hd Hf)
    as (r & w' & Hrun & Hfs & _).
  eexists _, w'. split; [exact Hrun|]. split; [done|].
  split; [exists r; rewrite Hfs; apply lookup_insert_eq|].
  split; [intros q Hq; rewrite Hfs; by apply lookup_insert_ne|].
  unfold stamped. simpl. rewrite !dict_get_set.
  repeat split; try by repeat decide_keys.
  intros k Hk. rewrite !dict_get_set.
  rewrite !not_elem_of_cons in Hk. destruct Hk as (? & ? & ? & ? & _).
  repeat case_decide; congruence.
Qed.

(** X12: when the directory of the snapshot is not there, [save_index]
    raises [OSError] and leaves the world as it was: nothing is written
    and nothing is logged. *)
Theorem save_index_without_directory (index : ProjectIndex)
    (p : list string) (w : World) :
  is_dir (parent p) w = false →
  save_index index p w = (Raise OSError, w).
Proof.
  intros Hd. unfold save_index, bind at 1, get_state.
  unfold bind at 1, open_write, bind at 1, get_state. by rewrite Hd.
Qed.

(** X13: a snapshot saved to a path that held no file, or a readable one,
    loads back as the very index [save_index] returned, metadata included,
    given that the library reads back the JSON text and the date texts it
    printed for that index. *)
Theorem save_then_load (index : ProjectIndex) (p : list string) (w : World) :
  p ≠ [] → is_dir (parent p) w = true → fs w !! p ≠ Some Dir →
  (∀ c, fs w !! p ≠ Some (File false c)) →
  json_loads (to_json (stamped (clock w) index))
    = Some (model_dump_index (stamped (clock w) index)) →
  (∀ r d, r ∈ projects index → created_at r = Some d ∨ updated_at r = Some d →
          validate_datetime (JStr (isoformat d)) = Some d) →
  ∃ index' w1 w2,
    save_index index p w = (Ok index', w1)
    ∧ load_existing_index p w1 = (Ok (Some index'), w2)
    ∧ projects index' = projects index.
Proof.
  intros Hp Hd Hf Hr Hjson Hdates.
  destruct (save_index_run index p w Hp Hd Hf)
    as (r & w1 & Hrun & Hfs & Hnew & Hold & Hclock & _).
  assert (r = true) as ->.
  { destruct (fs w !! p) as [[[|] c|]|] eqn:E.
    - by apply (Hold c true).
    - by destruct (Hr c).
    - done.
    - by apply Hnew. }
  assert (Hfile : fs w1 !! p
                  = Some (File true (to_json (stamped (clock w) index))))
    by (rewrite Hfs; apply lookup_insert_eq).
  eexists _, w1, _. split; [exact Hrun|]. split; [|done].
  rewrite load_existing_index_run, (path_exists_file _ _ _ Hfile), Hfile.
  simpl. rewrite Hjson, Hclock, ProjectIndex_of_dump by done.
  reflexivity.
Qed.

End save_more.

Lemma save_index_writes_witness :
  ∃ index' w',
    save_index (lib := MoreSamples.lib) Samples.saved_index
               ["data"; "project_index.json"] MoreSamples.fresh_world
      = (Ok index', w')
    ∧ projects index' = projects Samples.saved_index
    ∧ fs w' !! ["data"; "project_index.json"]
        = Some (File true "stamped")
    ∧ dict_get "total_projects" (metadata index') = Some (JNum 3).
Proof.
  destruct (save_index_writes (lib := MoreSamples.lib) Samples.saved_index
              ["data"; "project_index.json"] MoreSamples.fresh_world)
    as (index' & w' & Hrun & Hp & _ & _ & _ & Ht & _); [done.. |].
  exists index', w'. split; [exact Hrun|]. split; [exact Hp|].
  split; [|exact Ht].
  assert (Hw : w' = (save_index (lib := MoreSamples.lib) Samples.saved_index
                       ["data"; "project_index.json"]
                       MoreSamples.fresh_world).2) by by rewrite Hrun.
  rewrite Hw. reflexivity.
Defined.

Lemma save_index_without_directory_witness :
  save_index (lib := MoreSamples.lib) Samples.saved_index
             ["data"; "project_index.json"]
             (Samples.world_of Samples.offline)
  = (Raise OSError, Samples.world_of Samples.offline).
Proof.
  apply (save_index_without_directory (lib := MoreSamples.lib)).
  reflexivity.
Defined.

Lemma save_then_load_witness :
  ∃ index' w1 w2,
    save_index (lib := MoreSamples.lib) Samples.saved_index
               ["data"; "project_index.json"] MoreSamples.fresh_world
      = (Ok index', w1)
    ∧ load_existing_index (lib := MoreSamples.lib)
        ["data"; "project_index.json"] w1 = (Ok (Some index'), w2)
    ∧ projects index' = projects Samples.saved_index.
Proof.
  apply (save_then_load (lib := MoreSamples.lib) Samples.saved_index
           ["data"; "project_index.json"] MoreSamples.fresh_world);
    try done.
  intros r d Hr Hd.
  assert (d = Samples.sample_date) as ->; [|reflexivity].
  simpl in Hr. rewrite !elem_of_cons in Hr.
  destruct Hr as [->|[->|[->|Hr]]]; simpl in Hd;
    [| | |by apply elem_of_nil in Hr];
    destruct Hd as [Hd|Hd]; congruence.
Defined.

(** * Further properties of the run *)

Ltac other_path :=
  first
    [ by (let E := fresh in
          intros E; apply app_inv_head in E; discriminate E)
    | by (let E := fresh in
          intros E; apply (f_equal length) in E;
          rewrite length_app in E; simpl in E; lia) ].

Section export_more.
Context {lib : PyLib}.

Lemma bind_Ok_inv {S A B} (m : M S A) (k : A → M S B) (s s' : S) (b : B) :
  bind m k s = (Ok b, s') →
  ∃ a s1, m s = (Ok a, s1) ∧ k a s1 = (Ok b, s').
Proof.
  unfold bind. destruct (m s) as [[a|e|] s1]; [|done..]. by eexists _, _.
Qed.

Lemma open_write_Ok_inv (p : list string) (content : string) (w w' : World) :
  open_write p content w = (Ok tt, w') →
  ∃ r, fs w' = <[p := File r content]> (fs w).
Proof.
  unfold open_write, bind, get_state.
  destruct (is_dir (parent p) w); simpl; [|done].
  destruct p as [|c p]; [done|].
  destruct (fs w !! (c :: p)) as [[r c'|]|]; [| done |];
    intros [= <-]; by eexists.
Qed.

Lemma write_category_inv (index : ProjectIndex) (dir : list string)
    (src type_ file_name : string) (w w' : World) :
  write_category index dir src type_ file_name w = (Ok tt, w') →
  (∀ q, q ≠ dir ++ [file_name] → fs w' !! q = fs w !! q)
  ∧ (filter (λ p, source p = src ∧ type p = type_) (projects index) = [] →
     fs w' = fs w)
  ∧ (filter (λ p, source p = src ∧ type p = type_) (projects index) ≠ [] →
     ∃ r, fs w' !! (dir ++ [file_name]) =
          Some (File r (json_dumps
                  (JArr (model_dump_project str_datetime <$>
                         filter (λ p, source p = src ∧ type p = type_)
                                (projects index)))))).
Proof.
  unfold write_category. case_bool_decide as Hsel.
  - intros [= <-]. by repeat split.
  - intros Hrun. apply bind_Ok_inv in Hrun as ([] & w1 & Hw & Hlog).
    apply open_write_Ok_inv in Hw as [r Hfs].
    injection Hlog as <-. simpl. rewrite Hfs.
    split; [intros q Hq; by apply lookup_insert_ne|].
    split; [done|]. intros _. exists r. apply lookup_insert_eq.
Qed.

Lemma mkdir_exist_ok_Ok_inv (p : list string) (w w' : World) :
  mkdir_exist_ok p w = (Ok tt, w') → ∀ q, q ≠ p → fs w' !! q = fs w !! q.
Proof.
  intros Hrun.
  destruct (mkdir_exist_ok_frame p w) as (r & w1 & Hrun1 & _ & _ & _ & _ & H).
  rewrite Hrun in Hrun1. by injection Hrun1 as <- <-.
Qed.

(** X14: after [create_organized_output] has succeeded, each of the five
    export files holds the records of its source and type, in index order,
    when there is at least one such record; a combination without records
    has no file written: what was at its path (a file of an earlier run, or
    nothing) is still there. *)
Theorem create_organized_output_files (index : ProjectIndex)
    (dir : list string) (w w' : World) :
  create_organized_output index dir w = (Ok tt, w') →
  ∀ src type_ file_name,
    (src, type_, file_name) ∈ export_files →
    (filter (λ p, source p = src ∧ type p = type_) (projects index) = [] →
     fs w' !! (dir ++ [file_name]) = fs w !! (dir ++ [file_name]))
    ∧ (filter (λ p, source p = src ∧ type p = type_) (projects index) ≠ [] →
       ∃ r, fs w' !! (dir ++ [file_name]) =
            Some (File r (json_dumps
                    (JArr (model_dump_project str_datetime <$>
                           filter (λ p, source p = src ∧ type p = type_)
                                  (projects index)))))).
Proof.
  unfold create_organized_output. intros Hrun.
  apply bind_Ok_inv in Hrun as ([] & w0 & H0 & Hrun).
  apply bind_Ok_inv in Hrun as ([] & w1 & H1 & Hrun).
  apply bind_Ok_inv in Hrun as ([] & w2 & H2 & Hrun).
  apply bind_Ok_inv in Hrun as ([] & w3 & H3 & Hrun).
  apply bind_Ok_inv in Hrun as ([] & w4 & H4 & H5).
  pose proof (mkdir_exist_ok_Ok_inv _ _ _ H0) as F0.
  apply write_category_inv in H1 as (F1 & E1 & W1).
  apply write_category_inv in H2 as (F2 & E2 & W2).
  apply write_category_inv in H3 as (F3 & E3 & W3).
  apply write_category_inv in H4 as (F4 & E4 & W4).
  apply write_category_inv in H5 as (F5 & E5 & W5).
  intros src type_ file_name Hin. unfold export_files in Hin.
  rewrite !elem_of_cons in Hin.
  destruct Hin as [[= -> -> ->]|[[= -> -> ->]|[[= -> -> ->]|[[= -> -> ->]|
                  [[= -> -> ->]|Hin]]]]]; [| | | | |by apply elem_of_nil in Hin].
  - split.
    + intros Hsel. rewrite F5, F4, F3, F2 by other_path.
      rewrite (E1 Hsel). apply F0. other_path.
    + intros Hsel. destruct (W1 Hsel) as [r Hr]. exists r.
      by rewrite F5, F4, F3, F2 by other_path.
  - split.
    + intros Hsel. rewrite F5, F4, F3 by other_path.
      rewrite (E2 Hsel), F1 by other_path. apply F0. other_path.
    + intros Hsel. destruct (W2 Hsel) as [r Hr]. exists r.
      by rewrite F5, F4, F3 by other_path.
  - split.
    + intros Hsel. rewrite F5, F4 by other_path.
      rewrite (E3 Hsel), F2, F1 by other_path. apply F0. other_path.
    + intros Hsel. destruct (W3 Hsel) as [r Hr]. exists r.
      by rewrite F5, F4 by other_path.
  - split.
    + intros Hsel. rewrite F5 by other_path.
      rewrite (E4 Hsel), F3, F2, F1 by other_path. apply F0. other_path.
    + intros Hsel. destruct (W4 Hsel) as [r Hr]. exists r.
      by rewrite F5 by other_path.
  - split.
    + intros Hsel.
      rewrite (E5 Hsel), F4, F3, F2, F1 by other_path. apply F0. other_path.
    + intros Hsel. destruct (W5 Hsel) as [r Hr]. by exists r.
Qed.

(** X15: a fetch that ends in an exception leaves the index as it was and
    costs the run one error record; a fetch that returns has its records
    merged into the index; in both cases [fetch_and_merge] itself does not
    raise. *)
Theorem fetch_and_merge_isolates (what : string)
    (fetch : M World (list Project)) (index : ProjectIndex) (w : World) :
  (fetch (announced what w)).1 ≠ OutOfFuel →
  ∃ index' w',
    fetch_and_merge what fetch index w = (Ok index', w')
    ∧ match (fetch (announced what w)).1 with
      | Ok fetched =>
          index' = set_projects (upsert_all fetched (projects index)) index
      | _ =>
          index' = index
          ∧ log w' = log (fetch (announced what w)).2
                     ++ [Log ERROR "Error fetching" [] []
                           (match (fetch (announced what w)).1 with
                            | Raise e => Some e
                            | _ => None
                            end)]
      end.
Proof.
  intros Hfuel. unfold fetch_and_merge.
  unfold bind at 1, try_except, bind at 1.
  unfold logger_info at 1, logger at 1, modify at 1.
  fold (announced what w).
  unfold bind at 1.
  destruct (fetch (announced what w)) as [[fetched|e|] w1]; simpl in *;
    [| |done].
  - unfold merge_projects.
    destruct (merge_projects_loop_run fetched (mkStats 0 0) index)
      as [st ->].
    by eexists _, _.
  - by eexists _, _.
Qed.

End export_more.

Lemma create_organized_output_files_witness :
  fs (create_organized_output (lib := MoreSamples.lib) MoreSamples.one_repo
        ["data"; "organized"] MoreSamples.fresh_world).2
     !! ["data"; "organized"; "github_gists.json"] = None
  ∧ ∃ r, fs (create_organized_output (lib := MoreSamples.lib)
               MoreSamples.one_repo ["data"; "organized"]
               MoreSamples.fresh_world).2
            !! ["data"; "organized"; "github_repositories.json"]
         = Some (File r "[]").
Proof.
  pose proof (create_organized_output_files (lib := MoreSamples.lib)
                MoreSamples.one_repo ["data"; "organized"]
                MoreSamples.fresh_world
                (create_organized_output (lib := MoreSamples.lib)
                   MoreSamples.one_repo ["data"; "organized"]
                   MoreSamples.fresh_world).2 eq_refl) as H.
  split.
  - destruct (H "GitHub" "Gist" "github_gists.json") as [He _];
      [right; left|].
    etrans; [apply He; reflexivity | reflexivity].
  - destruct (H "GitHub" "Repository" "github_repositories.json") as [_ Hw];
      [left|].
    destruct Hw as [r Hr]; [discriminate|]. exists r. exact Hr.
Defined.

Lemma fetch_and_merge_isolates_witness :
  ∃ index' w',
    fetch_and_merge "GitHub repositories"
      (fetch_public_repos (lib := MoreSamples.lib) 3 (Some "u"))
      MoreSamples.one_repo (Samples.world_of Samples.offline)
      = (Ok index', w')
    ∧ index' = MoreSamples.one_repo.
Proof.
  destruct (fetch_and_merge_isolates "GitHub repositories"
              (fetch_public_repos (lib := MoreSamples.lib) 3 (Some "u"))
              MoreSamples.one_repo (Samples.world_of Samples.offline))
    as (index' & w' & Hrun & Hm); [discriminate|].
  exists index', w'. split; [exact Hrun|]. exact (proj1 Hm).
Defined.

(** * Further properties of the GitHub fetcher *)

Section github_more.
Context {lib : PyLib}.

(** The gist loop stops at the first page with fewer than [gh_per_page]
    gists. *)
Lemma fetch_gists_loop_run (username : string) (full : list (list raw_gist))
    (short : list raw_gist) :
  ∀ (fuel page : nat) (projects : list Project) (w : World),
    (length full < fuel)%nat →
    Forall (λ pg, (gh_per_page ≤ length pg)%nat) full →
    (length short < gh_per_page)%nat →
    (∀ k pg, full !! k = Some pg →
       gh_gists (net w) username gh_per_page (page + k) = Ok pg) →
    gh_gists (net w) username gh_per_page (page + length full) = Ok short →
    (∀ g, g ∈ concat full ++ short → ∃ o, gist_project username g = Ok o) →
    ∃ w',
      fetch_gists_loop username fuel page projects w =
        (Ok (projects ++ kept (gist_project username) (concat full ++ short)),
         w')
      ∧ sent w' = sent w ++ gist_page_requests username page (S (length full))
      ∧ net w' = net w ∧ fs w' = fs w.
Proof.
  induction full as [|pg full IH];
    intros fuel page projects w Hfuel Hfull Hshort Hpages Hlast Hok;
    (destruct fuel as [|fuel]; [simpl in Hfuel; lia|]).
  - simpl in *. rewrite Nat.add_0_r in Hlast.
    unfold bind at 1. rewrite session_get_run, Hlast.
    case_bool_decide as Hempty.
    + subst short. eexists. unfold ret. split; [by rewrite app_nil_r|].
      by simpl.
    + unfold bind, lift_result. rewrite for_each_kept by done.
      unfold logger_info, logger, modify. simpl.
      assert ((length short <? gh_per_page)%nat = true) as ->
        by (apply Nat.ltb_lt; lia).
      eexists. split; [reflexivity|]. by simpl.
  - apply Forall_cons in Hfull as [Hpg Hfull].
    assert (Hans : gh_gists (net w) username gh_per_page page = Ok pg).
    { rewrite <- (Nat.add_0_r page). by apply Hpages. }
    simpl. unfold bind at 1. rewrite session_get_run, Hans.
    rewrite bool_decide_eq_false_2.
    2:{ intros ->. unfold gh_per_page in Hpg. simpl in Hpg. lia. }
    unfold bind at 1. unfold lift_result at 1.
    rewrite for_each_kept.
    2:{ intros g Hg. apply Hok. simpl. rewrite <- app_assoc.
        apply elem_of_app. by left. }
    unfold bind at 1. unfold logger_info, logger, modify.
    assert ((length pg <? gh_per_page)%nat = false) as ->
      by (apply Nat.ltb_ge; lia).
    match goal with
    | |- ∃ _, fetch_gists_loop _ _ _ _ ?w1 = _ ∧ _ =>
        destruct (IH fuel (S page)
                     (projects ++ kept (gist_project username) pg) w1)
          as (w' & Hrun & Hsent & Hnet & Hfs)
    end.
    + simpl in Hfuel. lia.
    + done.
    + done.
    + intros k pg' Hk. simpl.
      replace (S (page + k)) with (page + S k)%nat by lia.
      by apply Hpages.
    + simpl. simpl in Hlast.
      by replace (S (page + length full)) with (page + S (length full))%nat
        by lia.
    + intros g Hg. apply Hok. simpl. rewrite <- app_assoc.
      apply elem_of_app. by right.
    + exists w'. split; [|split; [|split]].
      * rewrite Hrun. simpl. by rewrite <- !app_assoc, (kept_app _ pg).
      * rewrite Hsent. simpl. by rewrite <- app_assoc.
      * by rewrite Hnet.
      * by rewrite Hfs.
Qed.

(** X16: the gist fetch walks the pages like the repository fetch: when
    the pages [full] hold at least 100 gists each and the page after them
    fewer (none included), it sends the requests for pages
    [1 .. length full + 1], in order, and returns what the gists of these
    pages map to. *)
Theorem fetch_public_gists_pagination (username : string)
    (full : list (list raw_gist)) (short : list raw_gist) (fuel : nat)
    (w : World) :
  username ≠ "" →
  (length full < fuel)%nat →
  Forall (λ pg, (gh_per_page ≤ length pg)%nat) full →
  (length short < gh_per_page)%nat →
  (∀ k pg, full !! k = Some pg →
     gh_gists (net w) username gh_per_page (1 + k) = Ok pg) →
  gh_gists (net w) username gh_per_page (1 + length full) = Ok short →
  (∀ g, g ∈ concat full ++ short → ∃ o, gist_project username g = Ok o) →
  ∃ w',
    fetch_public_gists fuel (Some username) w =
      (Ok (kept (gist_project username) (concat full ++ short)), w')
    ∧ sent w' = sent w ++ gist_page_requests username 1 (S (length full)).
Proof.
  intros Hu Hfuel Hfull Hshort Hpages Hlast Hok.
  unfold fetch_public_gists, resolve_username.
  rewrite bool_decide_eq_false_2 by done.
  unfold bind at 1. unfold ret at 1.
  unfold bind at 1. unfold logger_info, logger, modify.
  unfold bind at 1.
  match goal with
  | |- ∃ _, match fetch_gists_loop _ _ _ _ ?w1 with _ => _ end = _ ∧ _ =>
      destruct (fetch_gists_loop_run username full short fuel 1 [] w1)
        as (w' & Hrun & Hsent & _); try done
  end.
  rewrite Hrun. unfold bind, ret. simpl.
  eexists. split; [reflexivity|]. simpl. exact Hsent.
Qed.

Lemma repo_project_cases (r : raw_repo) :
  (option_truthy (r_private r) false = true ∧ repo_project r = Ok None)
  ∨ (option_truthy (r_private r) false = false
     ∧ ∃ c u, fromisoformat (replace_Z (r_created_at r)) = Some c
              ∧ fromisoformat (replace_Z (r_updated_at r)) = Some u
              ∧ repo_project r =
                  Ok (Some (mkProject "GitHub" "Repository" (r_name r)
                              (r_full_name r) (r_description r)
                              (r_html_url r) (Some c) (Some u)
                              (r_language r) (default [] (r_topics r)))))
  ∨ (option_truthy (r_private r) false = false
     ∧ (fromisoformat (replace_Z (r_created_at r)) = None
        ∨ fromisoformat (replace_Z (r_updated_at r)) = None)
     ∧ repo_project r = Raise ValueError).
Proof.
  unfold repo_project, parse_iso_Z.
  destruct (option_truthy (r_private r) false); [by left|]. right.
  destruct (fromisoformat (replace_Z (r_created_at r))) as [c|];
    [|right; split; [done|]; split; [by left | done]].
  destruct (fromisoformat (replace_Z (r_updated_at r))) as [u|];
    [|right; split; [done|]; split; [by right | done]].
  left. split; [done|]. by exists c, u.
Qed.

(** X17: from a page whose public repositories all carry readable dates
    the loop keeps exactly the public ones, in page order, as GitHub
    repositories; a repository flagged private is passed over before its
    dates are looked at, so it cannot fail the page. *)
Theorem for_each_repo_public (items : list raw_repo) (acc : list Project) :
  (∀ r, r ∈ items → option_truthy (r_private r) false = false →
     is_Some (fromisoformat (replace_Z (r_created_at r)))
     ∧ is_Some (fromisoformat (replace_Z (r_updated_at r)))) →
  ∃ ps,
    for_each repo_project items acc = Ok (acc ++ ps)
    ∧ full_name <$> ps =
        r_full_name <$>
          filter (λ r, option_truthy (r_private r) false = false) items
    ∧ Forall (λ p, source p = "GitHub" ∧ type p = "Repository") ps.
Proof.
  revert acc. induction items as [|r items IH]; intros acc Hok; simpl.
  - exists []. by rewrite app_nil_r.
  - assert (Hrest : ∀ r', r' ∈ items →
              option_truthy (r_private r') false = false →
              is_Some (fromisoformat (replace_Z (r_created_at r')))
              ∧ is_Some (fromisoformat (replace_Z (r_updated_at r'))))
      by (intros r' Hr'; apply Hok; by right).
    destruct (repo_project_cases r)
      as [[Hp ->]|[(Hp & c & u & _ & _ & ->)|(Hp & Hbad & _)]].
    + destruct (IH acc Hrest) as (ps & -> & Hn & Hs).
      exists ps. split; [done|]. split; [|done].
      by rewrite filter_cons_False by congruence.
    + destruct (IH (acc ++ [mkProject "GitHub" "Repository" (r_name r)
                              (r_full_name r) (r_description r)
                              (r_html_url r) (Some c) (Some u)
                              (r_language r) (default [] (r_topics r))])
                   Hrest) as (ps & -> & Hn & Hs).
      eexists (_ :: ps). split; [by rewrite <- app_assoc|].
      split; [|by constructor].
      rewrite filter_cons_True by done. rewrite !fmap_cons. simpl.
      by rewrite Hn.
    + destruct (Hok r) as [[? Hc] [? Hu]]; [left | done |].
      destruct Hbad; congruence.
Qed.

Lemma for_each_repo_raises (items : list raw_repo) (acc : list Project) :
  (∃ r, r ∈ items ∧ option_truthy (r_private r) false = false
        ∧ (fromisoformat (replace_Z (r_created_at r)) = None
           ∨ fromisoformat (replace_Z (r_updated_at r)) = None)) →
  for_each repo_project items acc = Raise ValueError.
Proof.
  revert acc. induction items as [|r items IH];
    intros acc (x & Hx & Hp & Hbad).
  - by apply elem_of_nil in Hx.
  - simpl.
    destruct (repo_project_cases r)
      as [[Hp' ->]|[(Hp' & c & u & Hc & Hu & ->)|(_ & _ & ->)]]; [| |done].
    + apply IH. exists x. split; [|done].
      apply elem_of_cons in Hx as [->|Hx]; [congruence | done].
    + apply IH. exists x. split; [|done].
      apply elem_of_cons in Hx as [->|Hx]; [|done].
      destruct Hbad; congruence.
Qed.

(** X18: one public repository with a date that cannot be read fails the
    whole repository fetch: when the first page holds such a repository,
    [fetch_public_repos] raises [ValueError] after that one request and
    returns no record at all. *)
Theorem fetch_public_repos_bad_date (username : string)
    (items : list raw_repo) (fuel : nat) (w : World) :
  username ≠ "" → (0 < fuel)%nat →
  gh_repos (net w) username gh_per_page 1 = Ok items →
  (∃ r, r ∈ items ∧ option_truthy (r_private r) false = false
        ∧ (fromisoformat (replace_Z (r_created_at r)) = None
           ∨ fromisoformat (replace_Z (r_updated_at r)) = None)) →
  ∃ w',
    fetch_public_repos fuel (Some username) w = (Raise ValueError, w')
    ∧ sent w' = sent w ++ [GET_user_repos username gh_per_page 1].
Proof.
  intros Hu Hfuel Hans Hbad.
  destruct fuel as [|fuel]; [lia|].
  unfold fetch_public_repos, resolve_username.
  rewrite bool_decide_eq_false_2 by done.
  unfold bind at 1. unfold ret at 1.
  unfold bind at 1. unfold logger_info at 1, logger, modify.
  unfold bind at 1. simpl fetch_repos_loop.
  unfold bind at 1. rewrite session_get_run. simpl net. rewrite Hans.
  rewrite bool_decide_eq_false_2.
  2:{ intros ->. destruct Hbad as (r & Hr & _). by apply elem_of_nil in Hr. }
  unfold bind at 1, lift_result at 1.
  rewrite for_each_repo_raises by done.
  eexists. split; [reflexivity|]. done.
Qed.

(** X19: the page loop has no bound of its own: against an endpoint that
    has a full page of well-formed repositories for every page number, the
    loop is still running after any number of rounds. *)
Theorem fetch_repos_loop_unbounded (username : string) (n : Network) :
  (∀ page, ∃ items,
     gh_repos n username gh_per_page page = Ok items
     ∧ (gh_per_page ≤ length items)%nat
     ∧ ∀ r, r ∈ items → ∃ o, repo_project r = Ok o) →
  ∀ (fuel page : nat) (projects : list Project) (w : World),
    net w = n →
    (fetch_repos_loop username fuel page projects w).1 = OutOfFuel.
Proof.
  intros Hfull fuel. induction fuel as [|fuel IH];
    intros page projects w Hnet; [done|].
  destruct (Hfull page) as (items & Hans & Hlen & Hok).
  simpl. unfold bind at 1. rewrite session_get_run, Hnet, Hans.
  rewrite bool_decide_eq_false_2.
  2:{ intros ->. unfold gh_per_page in Hlen. simpl in Hlen. lia. }
  unfold bind at 1, lift_result at 1. rewrite for_each_kept by done.
  unfold bind at 1. unfold logger_info, logger, modify.
  assert ((length items <? gh_per_page)%nat = false) as ->
    by (apply Nat.ltb_ge; lia).
  by apply IH.
Qed.

(** X20: when no user name is given and the identity request fails, the
    repository fetch and the gist fetch raise the exception of that
    request; the identity request is the only one sent. *)
Theorem fetch_without_identity (e : exn) (fuel : nat) (w : World) :
  gh_user (net w) = Raise e →
  fetch_public_repos fuel None w
    = (Raise e, set_sent (sent w ++ [GET_user]) w)
  ∧ fetch_public_gists fuel None w
    = (Raise e, set_sent (sent w ++ [GET_user]) w).
Proof.
  intros He.
  unfold fetch_public_repos, fetch_public_gists, resolve_username,
    get_authenticated_user.
  split; unfold bind at 1; by rewrite session_get_run, He.
Qed.

(** X21: a public gist with readable dates becomes a record named by its
    id under [username/gist:id], without topics; its description is empty
    or absent only when the gist has no description and no file to name. *)
Theorem gist_project_described (username : string) (g : raw_gist) :
  option_truthy (g_public g) true = true →
  is_Some (fromisoformat (replace_Z (g_created_at g))) →
  is_Some (fromisoformat (replace_Z (g_updated_at g))) →
  ∃ p, gist_project username g = Ok (Some p)
       ∧ type p = "Gist"
       ∧ name p = g_id g
       ∧ full_name p = username +:+ "/gist:" +:+ g_id g
       ∧ topics p = []
       ∧ (falsy_str (description p) = true →
          falsy_str (g_description g) = true
          ∧ (g_files g = None ∨ g_files g = Some [])).
Proof.
  intros Hp [c Hc] [u Hu]. unfold gist_project, parse_iso_Z.
  rewrite Hp, Hc, Hu. simpl. eexists. split; [reflexivity|]. simpl.
  repeat split; try done;
    destruct (falsy_str (g_description g)) eqn:Hd;
    destruct (g_files g) as [[|[f d] fs]|]; simpl in *;
    try done; try congruence; auto.
Qed.

End github_more.

Lemma fetch_public_gists_pagination_witness :
  ∃ w',
    fetch_public_gists (lib := Samples.lib) 2 (Some "u")
                       (Samples.world_of (MoreSamples.one_page []))
      = (Ok (kept (gist_project (lib := Samples.lib) "u")
                  (replicate 100 MoreSamples.a_gist
                   ++ [MoreSamples.a_gist; MoreSamples.a_gist])), w')
    ∧ sent w' = [GET_user_gists "u" 100 1; GET_user_gists "u" 100 2].
Proof.
  destruct (fetch_public_gists_pagination (lib := Samples.lib) "u"
              [replicate 100 MoreSamples.a_gist]
              [MoreSamples.a_gist; MoreSamples.a_gist] 2
              (Samples.world_of (MoreSamples.one_page [])))
    as (w' & Hrun & Hsent).
  - done.
  - simpl. lia.
  - repeat constructor.
  - unfold gh_per_page. simpl. lia.
  - intros [|k] pg Hk; simpl in Hk; [by injection Hk as <-|done].
  - reflexivity.
  - intros g Hg. cbn [concat] in Hg. rewrite app_nil_r in Hg.
    assert (g = MoreSamples.a_gist) as ->.
    { rewrite elem_of_app, elem_of_replicate, !elem_of_cons in Hg.
      destruct Hg as [[-> _]|[->|[->|Hg]]]; try done.
      by apply elem_of_nil in Hg. }
    by eexists.
  - exists w'. split; [|exact Hsent].
    cbn [concat] in Hrun. rewrite app_nil_r in Hrun. exact Hrun.
Defined.

Lemma for_each_repo_public_witness :
  ∃ ps,
    for_each (repo_project (lib := Samples.lib))
             [MoreSamples.bad_date_repo true; Samples.a_repo; Samples.a_repo]
             [] = Ok ps
    ∧ full_name <$> ps = ["u/r"; "u/r"].
Proof.
  destruct (for_each_repo_public (lib := Samples.lib)
              [MoreSamples.bad_date_repo true; Samples.a_repo; Samples.a_repo]
              []) as (ps & Hrun & Hn & _).
  - intros r Hr Hp. rewrite !elem_of_cons in Hr.
    destruct Hr as [->|[->|[->|Hr]]];
      [discriminate Hp | | | by apply elem_of_nil in Hr];
      split; by eexists.
  - exists ps. split; [exact Hrun | exact Hn].
Defined.

Lemma fetch_public_repos_bad_date_witness :
  ∃ w',
    fetch_public_repos (lib := Samples.lib) 3 (Some "u")
      (Samples.world_of
         (MoreSamples.one_page [Samples.a_repo;
                                MoreSamples.bad_date_repo false]))
      = (Raise ValueError, w')
    ∧ sent w' = [GET_user_repos "u" 100 1].
Proof.
  apply (fetch_public_repos_bad_date (lib := Samples.lib) "u"
           [Samples.a_repo; MoreSamples.bad_date_repo false] 3).
  - done.
  - lia.
  - reflexivity.
  - exists (MoreSamples.bad_date_repo false).
    split; [right; left|]. split; [reflexivity|]. by left.
Defined.

Lemma fetch_repos_loop_unbounded_witness :
  (fetch_repos_loop (lib := Samples.lib) "u" 7 1 []
     (Samples.world_of MoreSamples.endless)).1 = OutOfFuel.
Proof.
  apply (fetch_repos_loop_unbounded (lib := Samples.lib) "u"
           MoreSamples.endless); [|reflexivity].
  intros page. exists (replicate 100 Samples.a_repo).
  split; [reflexivity|]. split; [unfold gh_per_page; simpl; lia|].
  intros r Hr. apply elem_of_replicate in Hr as [-> _]. by eexists.
Defined.

Lemma fetch_without_identity_witness :
  fetch_public_repos (lib := Samples.lib) 3 None
    (Samples.world_of Samples.offline)
  = (Raise HTTPError,
     set_sent [GET_user] (Samples.world_of Samples.offline))
  ∧ fetch_public_gists (lib := Samples.lib) 3 None
      (Samples.world_of Samples.offline)
    = (Raise HTTPError,
       set_sent [GET_user] (Samples.world_of Samples.offline)).
Proof.
  apply (fetch_without_identity (lib := Samples.lib) HTTPError 3
           (Samples.world_of Samples.offline)).
  reflexivity.
Defined.

Lemma gist_project_described_witness :
  ∃ p, gist_project (lib := Samples.lib) "u" MoreSamples.a_gist = Ok (Some p)
       ∧ full_name p = "u/gist:abc"
       ∧ description p = Some "Gist containing notes.md".
Proof.
  destruct (gist_project_described (lib := Samples.lib) "u" MoreSamples.a_gist)
    as (p & Hp & _ & _ & Hf & _); [reflexivity | by eexists | by eexists |].
  exists p. split; [exact Hp|]. split; [exact Hf|].
  assert (Hq : Some p = Some (default p
            (match gist_project (lib := Samples.lib) "u" MoreSamples.a_gist
             with Ok (Some q) => Some q | _ => None end)))
    by (rewrite Hp; reflexivity).
  injection Hq as ->. reflexivity.
Defined.

(** * Further properties of the HuggingFace fetcher *)

Section huggingface_more.
Context {lib : PyLib}.

Lemma for_each_hf_kept (type_ url_prefix : string)
    (language_of : raw_hf → option string) (items : list raw_hf) :
  for_each (hf_project type_ url_prefix language_of) items [] =
    Ok (kept (hf_project type_ url_prefix language_of) items).
Proof.
  rewrite for_each_kept; [done|]. intros item _.
  destruct (hf_project_total type_ url_prefix language_of item)
    as (o & Ho & _).
  by exists o.
Qed.

(** What a category fetch gives for each answer of the listing. *)
Lemma fetch_category_outcome (category type_ url_prefix : string)
    (language_of : raw_hf → option string) (author : string) (w : World) :
  author ≠ "" →
  ∃ w',
    fetch_category category type_ url_prefix language_of (Some author) w =
      (match hf_listing (net w) category author hf_limit with
       | Ok items => Ok (kept (hf_project type_ url_prefix language_of) items)
       | Raise e => Raise e
       | OutOfFuel => OutOfFuel
       end, w')
    ∧ sent w' = sent w ++ [GET_listing category author hf_limit]
    ∧ net w' = net w.
Proof.
  intros Ha. unfold fetch_category, resolve_author.
  rewrite bool_decide_eq_false_2 by done.
  unfold bind at 1. unfold ret at 1.
  unfold bind at 1. unfold logger_info at 1, logger, modify.
  unfold bind at 1. rewrite session_get_run. simpl net.
  destruct (hf_listing (net w) category author hf_limit) as [items|e|];
    [|by eexists..].
  unfold bind, lift_result. rewrite for_each_hf_kept.
  simpl. unfold ret. by eexists.
Qed.

Lemma extend_or_log_outcome (msg category type_ url_prefix : string)
    (language_of : raw_hf → option string) (author : string)
    (all_projects : list Project) (w : World) :
  author ≠ "" →
  hf_listing (net w) category author hf_limit ≠ OutOfFuel →
  ∃ w',
    extend_or_log msg
      (fetch_category category type_ url_prefix language_of)
      (Some author) all_projects w =
      (Ok (all_projects
           ++ contribution type_ url_prefix language_of
                (hf_listing (net w) category author hf_limit)), w')
    ∧ sent w' = sent w ++ [GET_listing category author hf_limit]
    ∧ net w' = net w.
Proof.
  intros Ha Hfuel. unfold extend_or_log, try_except, bind at 1.
  destruct (fetch_category_outcome category type_ url_prefix language_of
              author w Ha) as (w1 & -> & Hsent & Hnet).
  destruct (hf_listing (net w) category author hf_limit) as [items|e|];
    [| |done]; simpl.
  - by eexists.
  - eexists. split; [by rewrite app_nil_r|]. done.
Qed.

(** X22: [fetch_all] does not raise: it sends the three listing requests,
    models, datasets, spaces, in this order, and returns the records of the
    categories whose request was answered, in the same order; a category
    whose request failed adds nothing and does not stop the others. *)
Theorem fetch_all_isolates (author : string) (w : World) :
  author ≠ "" →
  (∀ category, hf_listing (net w) category author hf_limit ≠ OutOfFuel) →
  ∃ w',
    fetch_all (Some author) w =
      (Ok (contribution "Model" "https://huggingface.co/" h_pipeline_tag
             (hf_listing (net w) "models" author hf_limit)
           ++ contribution "Dataset" "https://huggingface.co/datasets/"
                (λ _, None) (hf_listing (net w) "datasets" author hf_limit)
           ++ contribution "Space" "https://huggingface.co/spaces/" h_sdk
                (hf_listing (net w) "spaces" author hf_limit)), w')
    ∧ sent w' = sent w ++ [GET_listing "models" author hf_limit;
                           GET_listing "datasets" author hf_limit;
                           GET_listing "spaces" author hf_limit].
Proof.
  intros Ha Hfuel. unfold fetch_all.
  unfold fetch_public_models, fetch_public_datasets, fetch_public_spaces.
  unfold bind at 1.
  destruct (extend_or_log_outcome "Error fetching models" "models" "Model"
              "https://huggingface.co/" h_pipeline_tag author [] w Ha
              (Hfuel _)) as (w1 & -> & Hs1 & Hn1).
  unfold bind at 1.
  destruct (extend_or_log_outcome "Error fetching datasets" "datasets"
              "Dataset" "https://huggingface.co/datasets/" (λ _, None)
              author
              ([] ++ contribution "Model" "https://huggingface.co/"
                       h_pipeline_tag
                       (hf_listing (net w) "models" author hf_limit))
              w1 Ha) as (w2 & -> & Hs2 & Hn2); [rewrite Hn1; apply Hfuel|].
  destruct (extend_or_log_outcome "Error fetching spaces" "spaces" "Space"
              "https://huggingface.co/spaces/" h_sdk author
              (([] ++ contribution "Model" "https://huggingface.co/"
                        h_pipeline_tag
                        (hf_listing (net w) "models" author hf_limit))
               ++ contribution "Dataset" "https://huggingface.co/datasets/"
                    (λ _, None)
                    (hf_listing (net w1) "datasets" author hf_limit))
              w2 Ha) as (w3 & -> & Hs3 & Hn3);
    [rewrite Hn2, Hn1; apply Hfuel|].
  exists w3. split.
  - rewrite Hn2, !Hn1. simpl. by rewrite <- app_assoc.
  - rewrite Hs3, Hs2, Hs1. by rewrite <- !app_assoc.
Qed.

Lemma last_segment_from_no_slash (acc s : string) :
  has_slash s = false → last_segment_from acc s = acc.
Proof.
  revert acc. induction s as [|c s IH]; intros acc; simpl; [done|].
  intros H. apply orb_false_elim in H as [Hc Hs].
  rewrite Hc. by apply IH.
Qed.

Lemma last_segment_from_app (owner n : string) :
  has_slash n = false →
  ∀ acc, last_segment_from acc (owner +:+ "/" +:+ n) = n.
Proof.
  intros Hn. induction owner as [|c owner IH]; intros acc; simpl.
  - by apply last_segment_from_no_slash.
  - case_bool_decide; apply IH.
Qed.

Lemma has_slash_app (owner n : string) :
  has_slash (owner +:+ "/" +:+ n) = true.
Proof.
  induction owner as [|c owner IH]; simpl; [done|].
  rewrite IH. apply orb_true_r.
Qed.

(** X23: the name of an item is what follows the last slash of its id:
    for the id [owner/name], with no slash in [name], it is [name], however
    many slashes [owner] holds; an id without a slash is its own name. *)
Theorem short_name_after_last_slash (owner n : string) :
  has_slash n = false →
  short_name (owner +:+ "/" +:+ n) = n ∧ short_name n = n.
Proof.
  intros Hn. unfold short_name, last_segment.
  rewrite has_slash_app, Hn. split; [|done].
  by apply last_segment_from_app.
Qed.

Lemma replace_Z_no_Z (s : string) : has_Z s = false → replace_Z s = s.
Proof.
  induction s as [|c s IH]; simpl; [done|].
  intros H. apply orb_false_elim in H as [Hc Hs].
  rewrite Hc. by rewrite IH.
Qed.

Lemma replace_Z_app (a b : string) :
  replace_Z (a +:+ b) = replace_Z a +:+ replace_Z b.
Proof.
  induction a as [|c a IH]; simpl; [done|].
  case_bool_decide; simpl; by rewrite IH.
Qed.

(** X24: a date text that ends in [Z] is read as the same text with
    [+00:00] in its place: both spellings of UTC give the same date, or
    both are refused. *)
Theorem parse_iso_Z_spellings (s : string) :
  has_Z s = false →
  parse_iso_Z (s +:+ "Z") = parse_iso_Z (s +:+ "+00:00").
Proof.
  intros Hs. unfold parse_iso_Z.
  by rewrite !replace_Z_app, (replace_Z_no_Z s Hs).
Qed.

End huggingface_more.

Lemma fetch_all_isolates_witness :
  ∃ w',
    fetch_all (lib := Samples.lib) (Some "u")
              (Samples.world_of MoreSamples.models_down)
      = (Ok (kept (hf_project (lib := Samples.lib) "Dataset"
                     "https://huggingface.co/datasets/" (λ _, None))
                  [Samples.a_model]
             ++ kept (hf_project (lib := Samples.lib) "Space"
                        "https://huggingface.co/spaces/" h_sdk)
                     [Samples.a_model]), w')
    ∧ sent w' = [GET_listing "models" "u" 500; GET_listing "datasets" "u" 500;
                 GET_listing "spaces" "u" 500].
Proof.
  destruct (fetch_all_isolates (lib := Samples.lib) "u"
              (Samples.world_of MoreSamples.models_down))
    as (w' & Hrun & Hsent).
  - done.
  - intros category. simpl. by case_bool_decide.
  - exists w'. split; [exact Hrun | exact Hsent].
Defined.

Lemma short_name_after_last_slash_witness :
  short_name ("org/team" +:+ "/" +:+ "model") = "model"
  ∧ short_name "model" = "model".
Proof. apply (short_name_after_last_slash "org/team" "model"). reflexivity. Defined.

Lemma parse_iso_Z_spellings_witness :
  parse_iso_Z (lib := Samples.lib) ("2020-01-01T00:00:00" +:+ "Z")
  = parse_iso_Z (lib := Samples.lib) ("2020-01-01T00:00:00" +:+ "+00:00").
Proof.
  apply (parse_iso_Z_spellings (lib := Samples.lib) "2020-01-01T00:00:00").
  reflexivity.
Defined.

(** * Further properties of loading *)

Section load_more.
Context {lib : PyLib}.

Lemma result_bind_valid_or_refused {A B} (r : result A) (k : A → result B) :
  valid_or_refused r → (∀ a, valid_or_refused (k a)) →
  valid_or_refused (result_bind r k).
Proof. destruct r; simpl; [by intros _ H | done | done]. Qed.

Lemma validate_str_list_refuses (l : list json) :
  valid_or_refused (validate_str_list l).
Proof.
  induction l as [|j l IH]; [done|]. destruct j; try done. simpl.
  by apply result_bind_valid_or_refused.
Qed.

Lemma validate_project_refuses (j : json) :
  valid_or_refused (validate_project j).
Proof.
  destruct j; try done. unfold validate_project.
  repeat (apply result_bind_valid_or_refused; [|intros ?]); try done.
  - by destruct (dict_get "source" kv) as [[]|].
  - by destruct (dict_get "type" kv) as [[]|].
  - by destruct (dict_get "name" kv) as [[]|].
  - by destruct (dict_get "full_name" kv) as [[]|].
  - by destruct (dict_get "description" kv) as [[]|].
  - by destruct (dict_get "url" kv) as [[]|].
  - unfold validate_opt_datetime.
    destruct (dict_get "created_at" kv) as [[]|]; try done;
      by destruct (validate_datetime _).
  - unfold validate_opt_datetime.
    destruct (dict_get "updated_at" kv) as [[]|]; try done;
      by destruct (validate_datetime _).
  - by destruct (dict_get "language" kv) as [[]|].
  - destruct (dict_get "topics" kv) as [[]|]; try done.
    apply validate_str_list_refuses.
Qed.

Lemma validate_projects_refuses_one (l : list json) (j : json) :
  j ∈ l → (∀ p, validate_project j ≠ Ok p) →
  validate_projects l = Raise ValidationError.
Proof.
  induction l as [|x l IH]; intros Hj Hbad; [by apply elem_of_nil in Hj|].
  simpl. pose proof (validate_project_refuses x) as Hx.
  destruct (validate_project x) as [p|e|] eqn:E; simpl in *; [| by subst | done].
  apply elem_of_cons in Hj as [->|Hj]; [by destruct (Hbad p)|].
  by rewrite IH.
Qed.

(** X25: one record of a snapshot that does not pass validation (a
    missing [url], a topic that is no text, ...) makes the whole snapshot
    unusable: [load_existing_index] logs a warning and returns [None], so
    none of the other records of the snapshot is kept. *)
Theorem load_rejects_bad_record (p : list string) (w : World)
    (content : string) (kv : list (string * json)) (l : list json)
    (j : json) :
  fs w !! p = Some (File true content) →
  json_loads content = Some (JObj kv) →
  dict_get "projects" kv = Some (JArr l) →
  j ∈ l → (∀ x, validate_project j ≠ Ok x) →
  load_existing_index p w = (Ok None, warned ValidationError w).
Proof.
  intros Hfile Hjson Hprojects Hj Hbad.
  rewrite load_existing_index_run, (path_exists_file _ _ _ Hfile), Hfile.
  simpl. rewrite Hjson. unfold ProjectIndex_of. rewrite Hprojects.
  rewrite (validate_projects_refuses_one l j Hj Hbad).
  by destruct (dict_get "metadata" kv) as [[]|].
Qed.

End load_more.

Lemma load_rejects_bad_record_witness :
  load_existing_index (lib := MoreSamples.broken_lib)
    ["data"; "project_index.json"] Samples.world_with_snapshot
  = (Ok None, warned ValidationError Samples.world_with_snapshot).
Proof.
  eapply (load_rejects_bad_record (lib := MoreSamples.broken_lib)
            ["data"; "project_index.json"] Samples.world_with_snapshot
            "snapshot" _ _
            (JObj [("source", JStr "GitHub"); ("type", JStr "Repository");
                   ("name", JStr "two"); ("full_name", JStr "u/two")])).
  - reflexivity.
  - reflexivity.
  - reflexivity.
  - right; left.
  - intros x Hx. discriminate Hx.
Defined.
